(** * The Wayland presentation layer of v4l2-decode (display.c)

    A shallow embedding of [display.c]: the three structures [struct display],
    [struct window] and [struct fb] live in a store indexed by address, the
    functions of the file are state-passing functions over that store, and
    every call into libwayland is recorded, in order, in a trace of requests.
    What the compositor sends back is an input: each blocking round trip is
    given the list of events that libwayland hands to the listeners of this
    file while it blocks. *)

From stdpp Require Import base gmap list strings.

Open Scope Z_scope.

(** ** Faults and machine integers

    A run of the code either ends with a result or stops at a fault: a store
    through NULL, an access to a structure that is not (or no longer)
    allocated, a division without result, an array access out of bounds, a
    failed [assert].

    [int] and [int32_t] are 32-bit two's complement.  Multiplication and
    addition wrap (what the compiled code does on overflow); division
    truncates toward zero and has no result for a zero divisor or for
    [INT_MIN / -1]. *)

Inductive fault :=
  | NullDereference
  | InvalidPointer
  | DivisionByZero
  | QuotientOverflow
  | OutOfBounds (index : Z)
  | AssertionFailed.

Inductive res (A : Type) :=
  | Ok (a : A)
  | Fault (f : fault).
Arguments Ok {A} a.
Arguments Fault {A} f.

Definition INT_MIN : Z := -2147483648.
Definition INT_MAX : Z := 2147483647.

Definition wrap_int (z : Z) : Z := (z + 2147483648) mod 4294967296 - 2147483648.

Definition int_mul (a b : Z) : Z := wrap_int (a * b).

Definition int_add (a b : Z) : Z := wrap_int (a + b).

(** An [int] passed where the callee takes a [uint32_t]: the value modulo
    2^32. *)
Definition to_uint32 (z : Z) : Z := z mod 4294967296.

Definition int_div (a b : Z) : res Z :=
  if b =? 0 then Fault DivisionByZero
  else if (a =? INT_MIN) && (b =? -1) then Fault QuotientOverflow
  else Ok (a ÷ b).

(** ** Protocol objects, addresses and structures *)

(** A libwayland proxy ([struct wl_surface *], [struct wl_buffer *], ...);
    a pointer that may be NULL is an [option handle]. *)
Definition handle : Type := nat.

(** The address of a [struct display], [struct window] or [struct fb]. *)
Definition addr : Type := nat.

(** [fb_release_cb_t]: the producer's callback, known by its code address. *)
Definition callback : Type := nat.

Record display := {
  d_display : option handle;
  d_registry : option handle;
  d_compositor : option handle;
  d_xdg_shell : option handle;
  d_viewporter : option handle;
  d_dmabuf : option handle;
  d_drm_formats : list Z;
  d_drm_format_count : Z;
  d_running : Z
}.

Record window := {
  w_display : addr;
  w_surface : option handle;
  w_viewport : option handle;
  w_xdg_surface : option handle;
  w_xdg_toplevel : option handle;
  w_buffer : option addr;
  w_width : Z;
  w_height : Z;
  w_size_set : bool;
  w_configured : bool
}.

(** [struct fb] is declared in display.h; its fields are the ones display.c
    reads and writes. *)
Record fb := {
  fb_index : Z;
  fb_fd : Z;
  fb_offset : Z;
  fb_format : Z;
  fb_width : Z;
  fb_height : Z;
  fb_stride : Z;
  fb_window : addr;
  fb_buffer : option handle;
  fb_release_cb : option callback;
  fb_cb_data : Z
}.

(** What [calloc(1, sizeof ...)] returns: every field zero. *)
Definition DRM_FORMATS_LEN : nat := 32.

Definition calloc_display : display :=
  {| d_display := None; d_registry := None; d_compositor := None;
     d_xdg_shell := None; d_viewporter := None; d_dmabuf := None;
     d_drm_formats := replicate DRM_FORMATS_LEN 0; d_drm_format_count := 0;
     d_running := 0 |}.

Definition calloc_window (display : addr) : window :=
  {| w_display := display; w_surface := None; w_viewport := None;
     w_xdg_surface := None; w_xdg_toplevel := None; w_buffer := None;
     w_width := 0; w_height := 0; w_size_set := false; w_configured := false |}.

(** ** Requests: the calls into libwayland (and stderr), as a trace

    A call is recorded with the arguments display.c passes, NULL included,
    each as the callee's parameter type receives it (an [int] passed to a
    [uint32_t] parameter is recorded converted); what libwayland does with
    them is not part of display.c.  A call that creates a proxy carries the
    new proxy, [new]. *)

Inductive request :=
  | wl_display_connect (new : option handle)
  | wl_display_get_registry (dpy : option handle) (new : handle)
  | wl_display_roundtrip (dpy : option handle)
  | wl_display_flush (dpy : option handle)
  | wl_display_disconnect (dpy : handle)
  | wl_registry_bind (registry : option handle) (id : Z) (interface : string)
      (version : Z) (new : handle)
  | wl_registry_destroy (registry : handle)
  | wl_compositor_create_surface (compositor : option handle) (new : handle)
  | wl_compositor_create_region (compositor : option handle) (new : handle)
  | wl_compositor_destroy (compositor : handle)
  | wl_region_add (region : handle) (x y width height : Z)
  | wl_region_destroy (region : handle)
  | wl_surface_set_opaque_region (surface : option handle) (region : handle)
  | wl_surface_attach (surface : option handle) (buffer : option handle) (x y : Z)
  | wl_surface_damage (surface : option handle) (x y width height : Z)
  | wl_surface_commit (surface : option handle)
  | wl_surface_destroy (surface : option handle)
  | wl_buffer_destroy (buffer : handle)
  | wp_viewporter_get_viewport (viewporter : handle) (surface : option handle)
      (new : handle)
  | wp_viewporter_destroy (viewporter : handle)
  | wp_viewport_set_destination (viewport : handle) (width height : Z)
  | wp_viewport_destroy (viewport : handle)
  | zxdg_shell_v6_get_xdg_surface (shell : handle) (surface : option handle)
      (new : handle)
  | zxdg_shell_v6_pong (shell : option handle) (serial : Z)
  | zxdg_shell_v6_destroy (shell : handle)
  | zxdg_surface_v6_get_toplevel (xdg_surface : handle) (new : handle)
  | zxdg_surface_v6_ack_configure (xdg_surface : option handle) (serial : Z)
  | zxdg_surface_v6_destroy (xdg_surface : handle)
  | zxdg_toplevel_v6_set_title (toplevel : handle) (title : string)
  | zxdg_toplevel_v6_destroy (toplevel : handle)
  | zwp_linux_dmabuf_v1_create_params (dmabuf : option handle) (new : handle)
  | zwp_linux_dmabuf_v1_destroy (dmabuf : handle)
  | zwp_linux_buffer_params_v1_add (params : handle) (fd plane_idx offset stride
      modifier_hi modifier_lo : Z)
  | zwp_linux_buffer_params_v1_create (params : handle) (width height format
      flags : Z)
  | zwp_linux_buffer_params_v1_destroy (params : handle)
  | release_cb_call (cb : callback) (fb : addr) (cb_data : Z)
  | err (msg : string).

(** ** Events: what the compositor sends, as delivered to the listeners

    An event names the structure that was registered as the listener's
    [data]; the proxy it arrives on is the one that structure holds (the
    buffer-parameters object is held by no structure and travels with its
    events). *)

Inductive event :=
  | registry_global (d : addr) (id : Z) (interface : string) (version : Z)
  | registry_global_remove (d : addr) (name : Z)
  | xdg_shell_ping (d : addr) (serial : Z)
  | dmabuf_format_event (d : addr) (format : Z)
  | xdg_toplevel_configure (w : addr) (width height : Z)
  | xdg_toplevel_close (w : addr)
  | xdg_surface_configure (w : addr) (serial : Z)
  | params_created (f : addr) (params : handle) (new_buffer : handle)
  | params_failed (f : addr) (params : handle)
  | buffer_release_event (f : addr).

(** ** The store and the monad of the embedding *)

Record world := {
  displays : gmap addr display;
  windows : gmap addr window;
  fbs : gmap addr fb;
  next_id : handle;
  trace : list request
}.

Definition M (A : Type) : Type := world → res (A * world).

Definition ret {A} (a : A) : M A := λ s, Ok (a, s).

Definition bind {A B} (m : M A) (k : A → M B) : M B :=
  λ s, match m s with
       | Ok (a, s') => k a s'
       | Fault f => Fault f
       end.

Definition fail {A} (f : fault) : M A := λ _, Fault f.

Definition lift {A} (r : res A) : M A :=
  λ s, match r with
       | Ok a => Ok (a, s)
       | Fault f => Fault f
       end.

Notation "'let*' x ':=' m 'in' k" := (bind m (λ x, k))
  (at level 10, x name, m at level 100, k at level 200).
Notation "'let*' ( x , y ) ':=' m 'in' k" :=
  (bind m (λ p, let '(x, y) := p in k))
  (at level 10, x name, y name, m at level 100, k at level 200).
Notation "m ';;;' k" := (bind m (λ _, k))
  (at level 100, k at level 200, right associativity).

(** The requests are kept newest first. *)
Definition emit (r : request) : M unit :=
  λ s, Ok (tt, {| displays := displays s; windows := windows s; fbs := fbs s;
                  next_id := next_id s; trace := r :: trace s |}).

(** A new client-side proxy. *)
Definition new_proxy : M handle :=
  λ s, Ok (next_id s, {| displays := displays s; windows := windows s;
                         fbs := fbs s; next_id := S (next_id s);
                         trace := trace s |}).

Definition load_display (p : addr) : M display :=
  λ s, match displays s !! p with
       | Some d => Ok (d, s)
       | None => Fault InvalidPointer
       end.

Definition load_window (p : addr) : M window :=
  λ s, match windows s !! p with
       | Some w => Ok (w, s)
       | None => Fault InvalidPointer
       end.

Definition load_fb (p : addr) : M fb :=
  λ s, match fbs s !! p with
       | Some f => Ok (f, s)
       | None => Fault InvalidPointer
       end.

Definition set_displays (m : gmap addr display) (s : world) : world :=
  {| displays := m; windows := windows s; fbs := fbs s;
     next_id := next_id s; trace := trace s |}.

Definition set_windows (m : gmap addr window) (s : world) : world :=
  {| displays := displays s; windows := m; fbs := fbs s;
     next_id := next_id s; trace := trace s |}.

Definition set_fbs (m : gmap addr fb) (s : world) : world :=
  {| displays := displays s; windows := windows s; fbs := m;
     next_id := next_id s; trace := trace s |}.

Definition store_display (p : addr) (d : display) : M unit :=
  λ s, Ok (tt, set_displays (<[p := d]> (displays s)) s).

Definition store_window (p : addr) (w : window) : M unit :=
  λ s, Ok (tt, set_windows (<[p := w]> (windows s)) s).

Definition store_fb (p : addr) (f : fb) : M unit :=
  λ s, Ok (tt, set_fbs (<[p := f]> (fbs s)) s).

(** [free]. *)
Definition free_display (p : addr) : M unit :=
  λ s, Ok (tt, set_displays (delete p (displays s)) s).

Definition free_window (p : addr) : M unit :=
  λ s, Ok (tt, set_windows (delete p (windows s)) s).

Definition free_fb (p : addr) : M unit :=
  λ s, Ok (tt, set_fbs (delete p (fbs s)) s).

(** Field assignments. *)
Definition with_d_display (v : option handle) (d : display) : display :=
  {| d_display := v; d_registry := d_registry d; d_compositor := d_compositor d;
     d_xdg_shell := d_xdg_shell d; d_viewporter := d_viewporter d;
     d_dmabuf := d_dmabuf d; d_drm_formats := d_drm_formats d;
     d_drm_format_count := d_drm_format_count d; d_running := d_running d |}.

Definition with_d_registry (v : option handle) (d : display) : display :=
  {| d_display := d_display d; d_registry := v; d_compositor := d_compositor d;
     d_xdg_shell := d_xdg_shell d; d_viewporter := d_viewporter d;
     d_dmabuf := d_dmabuf d; d_drm_formats := d_drm_formats d;
     d_drm_format_count := d_drm_format_count d; d_running := d_running d |}.

Definition with_d_compositor (v : option handle) (d : display) : display :=
  {| d_display := d_display d; d_registry := d_registry d; d_compositor := v;
     d_xdg_shell := d_xdg_shell d; d_viewporter := d_viewporter d;
     d_dmabuf := d_dmabuf d; d_drm_formats := d_drm_formats d;
     d_drm_format_count := d_drm_format_count d; d_running := d_running d |}.

Definition with_d_xdg_shell (v : option handle) (d : display) : display :=
  {| d_display := d_display d; d_registry := d_registry d;
     d_compositor := d_compositor d; d_xdg_shell := v;
     d_viewporter := d_viewporter d; d_dmabuf := d_dmabuf d;
     d_drm_formats := d_drm_formats d;
     d_drm_format_count := d_drm_format_count d; d_running := d_running d |}.

Definition with_d_viewporter (v : option handle) (d : display) : display :=
  {| d_display := d_display d; d_registry := d_registry d;
     d_compositor := d_compositor d; d_xdg_shell := d_xdg_shell d;
     d_viewporter := v; d_dmabuf := d_dmabuf d;
     d_drm_formats := d_drm_formats d;
     d_drm_format_count := d_drm_format_count d; d_running := d_running d |}.

Definition with_d_dmabuf (v : option handle) (d : display) : display :=
  {| d_display := d_display d; d_registry := d_registry d;
     d_compositor := d_compositor d; d_xdg_shell := d_xdg_shell d;
     d_viewporter := d_viewporter d; d_dmabuf := v;
     d_drm_formats := d_drm_formats d;
     d_drm_format_count := d_drm_format_count d; d_running := d_running d |}.

Definition with_d_formats (fs : list Z) (n : Z) (d : display) : display :=
  {| d_display := d_display d; d_registry := d_registry d;
     d_compositor := d_compositor d; d_xdg_shell := d_xdg_shell d;
     d_viewporter := d_viewporter d; d_dmabuf := d_dmabuf d;
     d_drm_formats := fs; d_drm_format_count := n; d_running := d_running d |}.

Definition with_d_running (v : Z) (d : display) : display :=
  {| d_display := d_display d; d_registry := d_registry d;
     d_compositor := d_compositor d; d_xdg_shell := d_xdg_shell d;
     d_viewporter := d_viewporter d; d_dmabuf := d_dmabuf d;
     d_drm_formats := d_drm_formats d;
     d_drm_format_count := d_drm_format_count d; d_running := v |}.

Definition with_w_buffer (v : option addr) (w : window) : window :=
  {| w_display := w_display w; w_surface := w_surface w;
     w_viewport := w_viewport w; w_xdg_surface := w_xdg_surface w;
     w_xdg_toplevel := w_xdg_toplevel w; w_buffer := v;
     w_width := w_width w; w_height := w_height w;
     w_size_set := w_size_set w; w_configured := w_configured w |}.

Definition with_w_size (width height : Z) (w : window) : window :=
  {| w_display := w_display w; w_surface := w_surface w;
     w_viewport := w_viewport w; w_xdg_surface := w_xdg_surface w;
     w_xdg_toplevel := w_xdg_toplevel w; w_buffer := w_buffer w;
     w_width := width; w_height := height;
     w_size_set := w_size_set w; w_configured := w_configured w |}.

Definition with_w_size_set (v : bool) (w : window) : window :=
  {| w_display := w_display w; w_surface := w_surface w;
     w_viewport := w_viewport w; w_xdg_surface := w_xdg_surface w;
     w_xdg_toplevel := w_xdg_toplevel w; w_buffer := w_buffer w;
     w_width := w_width w; w_height := w_height w;
     w_size_set := v; w_configured := w_configured w |}.

Definition with_w_configured (v : bool) (w : window) : window :=
  {| w_display := w_display w; w_surface := w_surface w;
     w_viewport := w_viewport w; w_xdg_surface := w_xdg_surface w;
     w_xdg_toplevel := w_xdg_toplevel w; w_buffer := w_buffer w;
     w_width := w_width w; w_height := w_height w;
     w_size_set := w_size_set w; w_configured := v |}.

Definition with_fb_buffer (v : option handle) (f : fb) : fb :=
  {| fb_index := fb_index f; fb_fd := fb_fd f; fb_offset := fb_offset f;
     fb_format := fb_format f; fb_width := fb_width f;
     fb_height := fb_height f; fb_stride := fb_stride f;
     fb_window := fb_window f; fb_buffer := v;
     fb_release_cb := fb_release_cb f; fb_cb_data := fb_cb_data f |}.

Definition with_fb_release (cb : option callback) (data : Z) (f : fb) : fb :=
  {| fb_index := fb_index f; fb_fd := fb_fd f; fb_offset := fb_offset f;
     fb_format := fb_format f; fb_width := fb_width f;
     fb_height := fb_height f; fb_stride := fb_stride f;
     fb_window := fb_window f; fb_buffer := fb_buffer f;
     fb_release_cb := cb; fb_cb_data := data |}.

(** ** display.c, function by function *)

Definition is_null {A} (p : option A) : bool :=
  match p with
  | Some _ => false
  | None => true
  end.

Definition fb_destroy (f : addr) : M unit :=
  let* fb := load_fb f in
  match fb_buffer fb with
  | Some b => emit (wl_buffer_destroy b)
  | None => ret tt
  end;;;
  free_fb f.

Definition window_commit (w : addr) : M unit :=
  let* win := load_window w in
  let* display := load_display (w_display win) in
  let* region := new_proxy in
  emit (wl_compositor_create_region (d_compositor display) region);;;
  emit (wl_region_add region 0 0 (w_width win) (w_height win));;;
  emit (wl_surface_set_opaque_region (w_surface win) region);;;
  emit (wl_region_destroy region);;;
  let* buffer :=
    match w_buffer win with
    | Some f => let* fb := load_fb f in ret (fb_buffer fb)
    | None => ret None
    end in
  emit (wl_surface_attach (w_surface win) buffer 0 0);;;
  emit (wl_surface_damage (w_surface win) 0 0 (w_width win) (w_height win));;;
  emit (wl_surface_commit (w_surface win)).

Definition window_recenter (w : addr) : M Z :=
  let* win := load_window w in
  match w_buffer win, w_viewport win with
  | Some f, Some viewport =>
      if (w_width win <=? 0) || (w_height win <=? 0) then ret 0
      else
        let* fb := load_fb f in
        let* (video_width, video_height) :=
          if fb_width fb >? fb_height fb then
            let* h := lift (int_div (int_mul (w_width win) (fb_height fb))
                                    (fb_width fb)) in
            ret (w_width win, h)
          else
            let* v := lift (int_div (int_mul (w_height win) (fb_width fb))
                                    (fb_height fb)) in
            ret (v, w_height win) in
        emit (wp_viewport_set_destination viewport video_width video_height);;;
        ret 1
  | _, _ => ret 0
  end.

Definition xdg_toplevel_handle_configure (w : addr) (width height : Z)
  : M unit :=
  let* win := load_window w in
  if (width <=? 0) || (height <=? 0) || is_null (w_viewport win) then ret tt
  else if negb (w_width win =? width) || negb (w_height win =? height) then
    store_window w (with_w_size_set true (with_w_size width height win))
  else ret tt.

Definition xdg_toplevel_handle_close (w : addr) : M unit :=
  let* win := load_window w in
  let* d := load_display (w_display win) in
  store_display (w_display win) (with_d_running 0 d).

Definition xdg_surface_handle_configure (w : addr) (serial : Z) : M unit :=
  let* win := load_window w in
  emit (zxdg_surface_v6_ack_configure (w_xdg_surface win) serial);;;
  store_window w (with_w_configured true win);;;
  let* recentered := window_recenter w in
  (if recentered =? 0 then ret tt else window_commit w);;;
  let* d := load_display (w_display win) in
  emit (wl_display_flush (d_display d)).

Definition display_create_window (display : addr) (mem : option addr)
  : M (option addr) :=
  match mem with
  | None => ret None
  | Some window =>
      store_window window (calloc_window display);;;
      let* d := load_display display in
      let* surface := new_proxy in
      emit (wl_compositor_create_surface (d_compositor d) surface);;;
      let* (xdg_surface, xdg_toplevel) :=
        match d_xdg_shell d with
        | Some shell =>
            let* xs := new_proxy in
            emit (zxdg_shell_v6_get_xdg_surface shell (Some surface) xs);;;
            let* tl := new_proxy in
            emit (zxdg_surface_v6_get_toplevel xs tl);;;
            emit (zxdg_toplevel_v6_set_title tl "v4l-decode");;;
            emit (wl_surface_commit (Some surface));;;
            ret (Some xs, Some tl)
        | None => ret (None, None)
        end in
      let* viewport :=
        match d_viewporter d with
        | Some viewporter =>
            let* vp := new_proxy in
            emit (wp_viewporter_get_viewport viewporter (Some surface) vp);;;
            ret (Some vp)
        | None => ret None
        end in
      store_window window
        {| w_display := display; w_surface := Some surface;
           w_viewport := viewport; w_xdg_surface := xdg_surface;
           w_xdg_toplevel := xdg_toplevel; w_buffer := None;
           w_width := 0; w_height := 0; w_size_set := false;
           w_configured := false |};;;
      ret (Some window)
  end.

Definition window_destroy (window : addr) : M unit :=
  let* win := load_window window in
  match w_xdg_toplevel win with
  | Some tl => emit (zxdg_toplevel_v6_destroy tl)
  | None => ret tt
  end;;;
  match w_xdg_surface win with
  | Some xs => emit (zxdg_surface_v6_destroy xs)
  | None => ret tt
  end;;;
  match w_viewport win with
  | Some vp => emit (wp_viewport_destroy vp)
  | None => ret tt
  end;;;
  emit (wl_surface_destroy (w_surface win));;;
  free_window window.

Definition buffer_release (f : addr) : M unit :=
  let* fb := load_fb f in
  match fb_release_cb fb with
  | Some cb => emit (release_cb_call cb f (fb_cb_data fb))
  | None => ret tt
  end.

Definition create_succeeded (f : addr) (params new_buffer : handle) : M unit :=
  let* fb := load_fb f in
  store_fb f (with_fb_buffer (Some new_buffer) fb);;;
  emit (zwp_linux_buffer_params_v1_destroy params).

Definition create_failed (f : addr) (params : handle) : M unit :=
  let* fb := load_fb f in
  store_fb f (with_fb_buffer None fb);;;
  emit (zwp_linux_buffer_params_v1_destroy params);;;
  emit (err "zwp_linux_buffer_params.create failed");;;
  let* win := load_window (fb_window fb) in
  let* d := load_display (w_display win) in
  store_display (w_display win) (with_d_running 0 d).

(** The loop of [format_is_supported], [n] iterations left at index [i]. *)
Fixpoint format_is_supported_loop (formats : list Z) (format : Z) (i n : nat)
  : res Z :=
  match n with
  | O => Ok 0
  | S n' =>
      match formats !! i with
      | None => Fault (OutOfBounds (Z.of_nat i))
      | Some x =>
          if x =? format then Ok 1
          else format_is_supported_loop formats format (S i) n'
      end
  end.

Definition format_is_supported (display : addr) (format : Z) : M Z :=
  let* d := load_display display in
  lift (format_is_supported_loop (d_drm_formats d) format 0
          (Z.to_nat (d_drm_format_count d))).

Definition dmabuf_format (d : addr) (format : Z) : M unit :=
  let* dd := load_display d in
  let n := d_drm_format_count dd in
  if 32 <? n then fail AssertionFailed
  else if (n <? 0) || (Z.of_nat (length (d_drm_formats dd)) <=? n)
  then fail (OutOfBounds n)
  else store_display d
         (with_d_formats (<[Z.to_nat n := format]> (d_drm_formats dd))
            (int_add n 1) dd).

Definition xdg_shell_handle_ping (d : addr) (serial : Z) : M unit :=
  let* dd := load_display d in
  emit (zxdg_shell_v6_pong (d_xdg_shell dd) serial).

Definition registry_handle_global (d : addr) (id : Z) (interface : string)
  (version : Z) : M unit :=
  let* dd := load_display d in
  if String.eqb interface "wl_compositor" then
    let* p := new_proxy in
    emit (wl_registry_bind (d_registry dd) id "wl_compositor" 1 p);;;
    store_display d (with_d_compositor (Some p) dd)
  else if String.eqb interface "wp_viewporter" then
    let* p := new_proxy in
    emit (wl_registry_bind (d_registry dd) id "wp_viewporter" 1 p);;;
    store_display d (with_d_viewporter (Some p) dd)
  else if String.eqb interface "zxdg_shell_v6" then
    let* p := new_proxy in
    emit (wl_registry_bind (d_registry dd) id "zxdg_shell_v6" 1 p);;;
    store_display d (with_d_xdg_shell (Some p) dd)
  else if String.eqb interface "zwp_linux_dmabuf_v1" then
    let* p := new_proxy in
    emit (wl_registry_bind (d_registry dd) id "zwp_linux_dmabuf_v1" 1 p);;;
    store_display d (with_d_dmabuf (Some p) dd)
  else ret tt.

Definition registry_handle_global_remove (d : addr) (name : Z) : M unit :=
  ret tt.

(** *** Event delivery

    libwayland calls a listener only for a proxy that is alive and has that
    listener: an event is handed to its handler when the structure it names
    is in the store and holds the proxy the listener was added to, and is
    dropped otherwise.  The listener tables of display.c fix which handler
    runs. *)

Definition dispatch (e : event) : M unit :=
  λ s,
    match e with
    | registry_global d id interface version =>
        match displays s !! d with
        | Some dd =>
            if is_null (d_registry dd) then Ok (tt, s)
            else registry_handle_global d id interface version s
        | None => Ok (tt, s)
        end
    | registry_global_remove d name =>
        match displays s !! d with
        | Some dd =>
            if is_null (d_registry dd) then Ok (tt, s)
            else registry_handle_global_remove d name s
        | None => Ok (tt, s)
        end
    | xdg_shell_ping d serial =>
        match displays s !! d with
        | Some dd =>
            if is_null (d_xdg_shell dd) then Ok (tt, s)
            else xdg_shell_handle_ping d serial s
        | None => Ok (tt, s)
        end
    | dmabuf_format_event d format =>
        match displays s !! d with
        | Some dd =>
            if is_null (d_dmabuf dd) then Ok (tt, s)
            else dmabuf_format d format s
        | None => Ok (tt, s)
        end
    | xdg_toplevel_configure w width height =>
        match windows s !! w with
        | Some win =>
            if is_null (w_xdg_toplevel win) then Ok (tt, s)
            else xdg_toplevel_handle_configure w width height s
        | None => Ok (tt, s)
        end
    | xdg_toplevel_close w =>
        match windows s !! w with
        | Some win =>
            if is_null (w_xdg_toplevel win) then Ok (tt, s)
            else xdg_toplevel_handle_close w s
        | None => Ok (tt, s)
        end
    | xdg_surface_configure w serial =>
        match windows s !! w with
        | Some win =>
            if is_null (w_xdg_surface win) then Ok (tt, s)
            else xdg_surface_handle_configure w serial s
        | None => Ok (tt, s)
        end
    | params_created f params new_buffer =>
        match fbs s !! f with
        | Some _ => create_succeeded f params new_buffer s
        | None => Ok (tt, s)
        end
    | params_failed f params =>
        match fbs s !! f with
        | Some _ => create_failed f params s
        | None => Ok (tt, s)
        end
    | buffer_release_event f =>
        match fbs s !! f with
        | Some fb =>
            if is_null (fb_buffer fb) then Ok (tt, s)
            else buffer_release f s
        | None => Ok (tt, s)
        end
    end.

Fixpoint dispatch_all (events : list event) : M unit :=
  match events with
  | [] => ret tt
  | e :: rest => dispatch e;;; dispatch_all rest
  end.

(** [wl_display_roundtrip(dpy)]: the request, then every event the
    compositor has sent by the time it answers. *)
Definition roundtrip (dpy : option handle) (events : list event) : M unit :=
  emit (wl_display_roundtrip dpy);;;
  dispatch_all events.

(** *** The producer-facing functions

    [mem] is what [calloc] returns, [None] for NULL; [events] is what the
    round trip of the call delivers. *)

Definition window_create_buffer (window : addr) (index fd offset format
  width height stride : Z) (mem : option addr) (events : list event)
  : M (option addr) :=
  match mem with
  | None => fail NullDereference
  | Some f =>
      store_fb f
        {| fb_index := index; fb_fd := fd; fb_offset := offset;
           fb_format := format; fb_width := width; fb_height := height;
           fb_stride := stride; fb_window := window; fb_buffer := None;
           fb_release_cb := None; fb_cb_data := 0 |};;;
      let* win := load_window window in
      let* d := load_display (w_display win) in
      let* params := new_proxy in
      emit (zwp_linux_dmabuf_v1_create_params (d_dmabuf d) params);;;
      emit (zwp_linux_buffer_params_v1_add params fd 0 (to_uint32 offset)
              (to_uint32 stride) 0 0);;;
      emit (zwp_linux_buffer_params_v1_create params width height format 0);;;
      roundtrip (d_display d) events;;;
      let* fb := load_fb f in
      if is_null (fb_buffer fb) then
        fb_destroy f;;;
        ret None
      else ret (Some f)
  end.

Definition window_show_buffer (window f : addr) (release_cb : option callback)
  (cb_data : Z) (events : list event) : M unit :=
  let* fb := load_fb f in
  store_fb f (with_fb_release release_cb cb_data fb);;;
  let* win := load_window window in
  let win := with_w_buffer (Some f) win in
  store_window window win;;;
  (if w_size_set win then ret tt
   else store_window window (with_w_size (fb_width fb) (fb_height fb) win));;;
  (if w_configured win then
     let* _ := window_recenter window in
     window_commit window
   else ret tt);;;
  let* d := load_display (w_display win) in
  roundtrip (d_display d) events.

Definition display_destroy (display : addr) : M unit :=
  let* d := load_display display in
  match d_viewporter d with
  | Some p => emit (wp_viewporter_destroy p)
  | None => ret tt
  end;;;
  match d_compositor d with
  | Some p => emit (wl_compositor_destroy p)
  | None => ret tt
  end;;;
  match d_xdg_shell d with
  | Some p => emit (zxdg_shell_v6_destroy p)
  | None => ret tt
  end;;;
  match d_dmabuf d with
  | Some p => emit (zwp_linux_dmabuf_v1_destroy p)
  | None => ret tt
  end;;;
  match d_registry d with
  | Some p => emit (wl_registry_destroy p)
  | None => ret tt
  end;;;
  match d_display d with
  | Some p => emit (wl_display_disconnect p)
  | None => ret tt
  end;;;
  free_display display.

(** [connected] tells whether [wl_display_connect] finds a compositor. *)
Definition display_create (mem : option addr) (connected : bool)
  (events : list event) : M (option addr) :=
  match mem with
  | None => ret None
  | Some display =>
      store_display display calloc_display;;;
      let* dpy :=
        if connected then let* p := new_proxy in ret (Some p) else ret None in
      emit (wl_display_connect dpy);;;
      store_display display (with_d_display dpy calloc_display);;;
      match dpy with
      | None =>
          emit (err "failed to connect to wayland display: %m");;;
          display_destroy display;;;
          ret None
      | Some _ =>
          let* registry := new_proxy in
          emit (wl_display_get_registry dpy registry);;;
          store_display display
            (with_d_registry (Some registry) (with_d_display dpy calloc_display));;;
          roundtrip dpy events;;;
          let* d := load_display display in
          if is_null (d_xdg_shell d) || is_null (d_dmabuf d) then
            emit (err "missing wayland globals");;;
            display_destroy display;;;
            ret None
          else
            store_display display (with_d_running 1 d);;;
            ret (Some display)
      end
  end.

Definition display_is_running (display : addr) : M Z :=
  let* d := load_display display in
  ret (d_running d).

(** * Vocabulary of the properties *)

(** ** Requests made and destinations set *)

(** The world with one more request made. *)
Definition request_made (r : request) (s : world) : world :=
  {| displays := displays s; windows := windows s; fbs := fbs s;
     next_id := next_id s; trace := r :: trace s |}.

(** The parts of the world a call leaves alone, and the requests it adds. *)
Definition adds_requests (new : list request) (s s' : world) : Prop :=
  displays s' = displays s ∧ windows s' = windows s ∧ fbs s' = fbs s ∧
  trace s' = new ++ trace s.

(** The requests of one [window_commit], newest first. *)
Definition commit_requests (surface compositor buffer : option handle)
  (region : handle) (width height : Z) : list request :=
  [ wl_surface_commit surface;
    wl_surface_damage surface 0 0 width height;
    wl_surface_attach surface buffer 0 0;
    wl_region_destroy region;
    wl_surface_set_opaque_region surface region;
    wl_region_add region 0 0 width height;
    wl_compositor_create_region compositor region ].

(** The requests [window_create_buffer] makes up to and including its round
    trip, newest first; the [int] offset and stride of the framebuffer reach
    [zwp_linux_buffer_params_v1_add] as [uint32_t]. *)
Definition import_requests (dmabuf dpy : option handle) (params : handle)
  (fd offset format width height stride : Z) : list request :=
  [ wl_display_roundtrip dpy;
    zwp_linux_buffer_params_v1_create params width height format 0;
    zwp_linux_buffer_params_v1_add params fd 0 (to_uint32 offset)
      (to_uint32 stride) 0 0;
    zwp_linux_dmabuf_v1_create_params dmabuf params ].

(** The requests a handler may make, per event. *)
Definition emitted_by (e : event) (r : request) : bool :=
  match e, r with
  | registry_global _ _ _ _, wl_registry_bind _ _ _ _ _ => true
  | xdg_shell_ping _ _, zxdg_shell_v6_pong _ _ => true
  | xdg_surface_configure _ _, zxdg_surface_v6_ack_configure _ _ => true
  | xdg_surface_configure _ _, wp_viewport_set_destination _ _ _ => true
  | xdg_surface_configure _ _, wl_compositor_create_region _ _ => true
  | xdg_surface_configure _ _, wl_region_add _ _ _ _ _ => true
  | xdg_surface_configure _ _, wl_surface_set_opaque_region _ _ => true
  | xdg_surface_configure _ _, wl_region_destroy _ => true
  | xdg_surface_configure _ _, wl_surface_attach _ _ _ _ => true
  | xdg_surface_configure _ _, wl_surface_damage _ _ _ _ _ => true
  | xdg_surface_configure _ _, wl_surface_commit _ => true
  | xdg_surface_configure _ _, wl_display_flush _ => true
  | params_created _ _ _, zwp_linux_buffer_params_v1_destroy _ => true
  | params_failed _ _, zwp_linux_buffer_params_v1_destroy _ => true
  | params_failed _ _, err _ => true
  | buffer_release_event _, release_cb_call _ _ _ => true
  | _, _ => false
  end.

(** The destinations set in a trace, newest first. *)
Fixpoint destinations (tr : list request) : list (handle * Z * Z) :=
  match tr with
  | [] => []
  | wp_viewport_set_destination viewport width height :: rest =>
      (viewport, width, height) :: destinations rest
  | _ :: rest => destinations rest
  end.


(** The event is a surface configure, of whatever window. *)
Definition is_surface_configure (e : event) : bool :=
  match e with
  | xdg_surface_configure _ _ => true
  | _ => false
  end.

(** ** The scaling rule of the specification *)

(** The destination the specification gives for window size [W]x[H] and
    buffer size [bw]x[bh]. *)
Definition scaled_destination (W H bw bh : Z) : Z * Z :=
  if bw >? bh then (W, W * bh / bw) else (H * bw / bh, H).

(** The product that [window_recenter] forms before dividing. *)
Definition scaling_product (W H bw bh : Z) : Z :=
  if bw >? bh then W * bh else H * bw.

(** ** Importing and showing *)

(** The framebuffer [window_create_buffer] fills in before the handshake. *)
Definition new_fb (window : addr) (index fd offset format width height
  stride : Z) : fb :=
  {| fb_index := index; fb_fd := fd; fb_offset := offset;
     fb_format := format; fb_width := width; fb_height := height;
     fb_stride := stride; fb_window := window; fb_buffer := None;
     fb_release_cb := None; fb_cb_data := 0 |}.

(** The world after the assignments of [window_show_buffer] on a window whose
    size was never set by the compositor: the callback is stored, the
    framebuffer is the window's buffer, its size is the window's size. *)
Definition shown_world (w f : addr) (win : window) (fb : fb)
  (release_cb : option callback) (cb_data : Z) (s : world) : world :=
  set_windows
    (<[w := with_w_size (fb_width fb) (fb_height fb)
              (with_w_buffer (Some f) win)]> (windows s))
    (set_fbs (<[f := with_fb_release release_cb cb_data fb]> (fbs s)) s).

(** ** Capability and format discovery *)

(** The event advertises the global [interface] to display [d]. *)
Definition advertised_by (d : addr) (interface : string) (e : event) : bool :=
  match e with
  | registry_global d' _ i _ => bool_decide (d' = d) && String.eqb i interface
  | _ => false
  end.

(** Some event of the round trip advertises [interface] to display [d]. *)
Definition advertises (d : addr) (interface : string) (events : list event)
  : bool :=
  existsb (advertised_by d interface) events.

(** The event is a registry advertisement. *)
Definition is_registry_global (e : event) : bool :=
  match e with
  | registry_global _ _ _ _ => true
  | _ => false
  end.

(** [n] format advertisements for the buffer-import global of display [d]. *)
Definition format_advertisements (d : addr) (n : nat) : list event :=
  map (λ i, dmabuf_format_event d (Z.of_nat i)) (seq 0 n).

(** The number of formats display [d] has recorded after a run, if the run
    ends and the display is there. *)
Definition recorded_formats {A} (d : addr) (r : res (A * world)) : option Z :=
  match r with
  | Ok (_, s) => d_drm_format_count <$> displays s !! d
  | Fault _ => None
  end.

(** ** Example worlds *)

(** The world before anything is created. *)
Definition empty_world : world :=
  {| displays := ∅; windows := ∅; fbs := ∅; next_id := 1%nat; trace := [] |}.

(** A compositor with all four globals, advertised to display 10. *)
Definition discovery_events : list event :=
  [ registry_global 10%nat 1 "wl_compositor" 4;
    registry_global 10%nat 2 "wp_viewporter" 1;
    registry_global 10%nat 3 "zxdg_shell_v6" 1;
    registry_global 10%nat 4 "zwp_linux_dmabuf_v1" 3 ].

(** A compositor without the buffer-import global. *)
Definition discovery_events_no_dmabuf : list event :=
  [ registry_global 10%nat 1 "wl_compositor" 4;
    registry_global 10%nat 2 "wp_viewporter" 1;
    registry_global 10%nat 3 "zxdg_shell_v6" 1 ].

(** A display after a capability discovery that found all four globals. *)
Definition example_display : display :=
  {| d_display := Some 1%nat; d_registry := Some 2%nat;
     d_compositor := Some 3%nat; d_xdg_shell := Some 5%nat;
     d_viewporter := Some 4%nat; d_dmabuf := Some 6%nat;
     d_drm_formats := replicate DRM_FORMATS_LEN 0; d_drm_format_count := 0;
     d_running := 1 |}.

(** A window of display 10 as [display_create_window] makes it, with a given
    size, flags, viewport and shown buffer. *)
Definition example_window (viewport : option handle) (buffer : option addr)
  (width height : Z) (size_set configured : bool) : window :=
  {| w_display := 10%nat; w_surface := Some 7%nat; w_viewport := viewport;
     w_xdg_surface := Some 8%nat; w_xdg_toplevel := Some 9%nat;
     w_buffer := buffer; w_width := width; w_height := height;
     w_size_set := size_set; w_configured := configured |}.

(** An imported NV12 buffer of window 20 with the given dimensions. *)
Definition example_fb (width height : Z) : fb :=
  {| fb_index := 0; fb_fd := 5; fb_offset := 0; fb_format := 842094158;
     fb_width := width; fb_height := height; fb_stride := width;
     fb_window := 20%nat; fb_buffer := Some 100%nat;
     fb_release_cb := None; fb_cb_data := 0 |}.

(** Display 10, its window 20 and the framebuffer 30. *)
Definition example_world (win : window) (f : fb) : world :=
  {| displays := {[ 10%nat := example_display ]};
     windows := {[ 20%nat := win ]};
     fbs := {[ 30%nat := f ]};
     next_id := 11%nat; trace := [] |}.

(** Display 10 and its window 20, before any buffer is imported. *)
Definition example_world_no_fb (win : window) : world :=
  {| displays := {[ 10%nat := example_display ]};
     windows := {[ 20%nat := win ]};
     fbs := ∅;
     next_id := 11%nat; trace := [] |}.

(** Scenario C: window 20, configured at 1280x720 by the compositor, and a
    1920x1080 framebuffer 30 not yet shown. *)
Definition scenario_c : world :=
  example_world (example_window (Some 10%nat) None 1280 720 true true)
    (example_fb 1920 1080).

(** Scenario D: the first import on a fresh window; the round trip delivers
    the window's first configure events, then the [failed] reply. *)
Definition scenario_d : world :=
  example_world_no_fb (example_window (Some 10%nat) None 0 0 false false).

(** What the round trip of that import delivers. *)
Definition scenario_d_events : list event :=
  [xdg_toplevel_configure 20%nat 1280 720; xdg_surface_configure 20%nat 77]
  ++ params_failed 30%nat 11%nat :: [].

(** The world that import ends in. *)
Definition scenario_d_result : world :=
  match window_create_buffer 20%nat 0 5 0 842094158 1920 1080 1920
          (Some 30%nat) scenario_d_events scenario_d with
  | Ok (_, s) => s
  | Fault _ => scenario_d
  end.

(** * Vocabulary of the further properties *)

(** The advertisements of the formats [formats], in order, to display [d]. *)
Definition advertise_formats (d : addr) (formats : list Z) : list event :=
  map (dmabuf_format_event d) formats.

(** The calls of the release callback for framebuffer [f] in a trace, newest
    first: the callback called and the context it was given. *)
Fixpoint release_calls (f : addr) (tr : list request) : list (callback * Z) :=
  match tr with
  | [] => []
  | release_cb_call cb f' cb_data :: rest =>
      if bool_decide (f' = f) then (cb, cb_data) :: release_calls f rest
      else release_calls f rest
  | _ :: rest => release_calls f rest
  end.

(** The event is a release of the buffer of framebuffer [f]. *)
Definition is_release_of (f : addr) (e : event) : bool :=
  match e with
  | buffer_release_event f' => bool_decide (f' = f)
  | _ => false
  end.

(** The event is a reply to the import of framebuffer [f]. *)
Definition is_reply_for (f : addr) (e : event) : bool :=
  match e with
  | params_created f' _ _ => bool_decide (f' = f)
  | params_failed f' _ => bool_decide (f' = f)
  | _ => false
  end.

(** The number of releases of framebuffer [f] a round trip delivers. *)
Definition releases_of (f : addr) (events : list event) : nat :=
  length (List.filter (is_release_of f) events).

(** The requests [window_show_buffer] itself may make. *)
Definition made_by_show (r : request) : bool :=
  match r with
  | wl_display_roundtrip _
  | wp_viewport_set_destination _ _ _
  | wl_compositor_create_region _ _
  | wl_region_add _ _ _ _ _
  | wl_surface_set_opaque_region _ _
  | wl_region_destroy _
  | wl_surface_attach _ _ _ _
  | wl_surface_damage _ _ _ _ _
  | wl_surface_commit _ => true
  | _ => false
  end.

(** The window and the framebuffer as [window_show_buffer] leaves them when
    its round trip starts. *)
Definition shown_window (f : addr) (fb : fb) (win : window) : window :=
  if w_size_set win then with_w_buffer (Some f) win
  else with_w_size (fb_width fb) (fb_height fb) (with_w_buffer (Some f) win).

(** The world a run ends in, [fallback] if it faults. *)
Definition world_after {A} (r : res (A * world)) (fallback : world) : world :=
  match r with
  | Ok (_, s) => s
  | Fault _ => fallback
  end.

(** The proxy a request creates, if it creates one. *)
Definition creates (r : request) : option handle :=
  match r with
  | wl_display_connect new => new
  | wl_display_get_registry _ new
  | wl_registry_bind _ _ _ _ new
  | wl_compositor_create_surface _ new
  | wl_compositor_create_region _ new
  | wp_viewporter_get_viewport _ _ new
  | zxdg_shell_v6_get_xdg_surface _ _ new
  | zxdg_surface_v6_get_toplevel _ new
  | zwp_linux_dmabuf_v1_create_params _ new => Some new
  | _ => None
  end.

(** The proxy a request destroys, if it destroys one. *)
Definition destroys (r : request) : option handle :=
  match r with
  | wl_surface_destroy surface => surface
  | wl_display_disconnect p
  | wl_registry_destroy p
  | wl_compositor_destroy p
  | wl_region_destroy p
  | wl_buffer_destroy p
  | wp_viewporter_destroy p
  | wp_viewport_destroy p
  | zxdg_shell_v6_destroy p
  | zxdg_surface_v6_destroy p
  | zxdg_toplevel_v6_destroy p
  | zwp_linux_dmabuf_v1_destroy p
  | zwp_linux_buffer_params_v1_destroy p => Some p
  | _ => None
  end.

(** The event is a registry advertisement to display [d]. *)
Definition is_advert_to (d : addr) (e : event) : bool :=
  match e with
  | registry_global d' _ _ _ => bool_decide (d' = d)
  | _ => false
  end.

(** How many events of a round trip advertise [interface] to display [d]. *)
Definition times_advertised (d : addr) (interface : string)
  (events : list event) : nat :=
  length (List.filter (advertised_by d interface) events).

(** 1 for a bound proxy, 0 for NULL. *)
Definition bound (p : option handle) : nat :=
  if is_null p then 0%nat else 1%nat.

(** The requests of [display_destroy] on a display, newest first. *)
Definition destroy_requests (dd : display) : list request :=
  option_list (wl_display_disconnect <$> d_display dd)
  ++ option_list (wl_registry_destroy <$> d_registry dd)
  ++ option_list (zwp_linux_dmabuf_v1_destroy <$> d_dmabuf dd)
  ++ option_list (zxdg_shell_v6_destroy <$> d_xdg_shell dd)
  ++ option_list (wl_compositor_destroy <$> d_compositor dd)
  ++ option_list (wp_viewporter_destroy <$> d_viewporter dd).

(** The serials of the pongs of a trace, newest first. *)
Definition pongs (tr : list request) : list Z :=
  omap (λ r, match r with
             | zxdg_shell_v6_pong _ serial => Some serial
             | _ => None
             end) tr.

(** The serials of the pings of a round trip, in the order of arrival. *)
Definition pings (events : list event) : list Z :=
  omap (λ e, match e with
             | xdg_shell_ping _ serial => Some serial
             | _ => None
             end) events.

(** The event is no ping for a display other than [d]. *)
Definition pings_only (d : addr) (e : event) : bool :=
  match e with
  | xdg_shell_ping d' _ => bool_decide (d' = d)
  | _ => true
  end.

(** The field [registry_handle_global] assigns for an interface. *)
Definition capability (interface : string) (dd : display) : option handle :=
  if String.eqb interface "wl_compositor" then d_compositor dd
  else if String.eqb interface "wp_viewporter" then d_viewporter dd
  else if String.eqb interface "zxdg_shell_v6" then d_xdg_shell dd
  else if String.eqb interface "zwp_linux_dmabuf_v1" then d_dmabuf dd
  else None.

(** * Properties *)


(** ** Unfolding the monad *)

Lemma bind_Ok {A B} (m : M A) (k : A → M B) (s : world) (r : B * world) :
  bind m k s = Ok r ↔ ∃ a s1, m s = Ok (a, s1) ∧ k a s1 = Ok r.
Proof.
  unfold bind. split.
  - destruct (m s) as [[a s1]|]; [eauto | discriminate].
  - intros (a & s1 & -> & Hk). exact Hk.
Qed.

Lemma ret_Ok {A} (a b : A) (s s' : world) :
  ret a s = Ok (b, s') → b = a ∧ s' = s.
Proof. unfold ret. intros H. inversion H. auto. Qed.

Lemma lift_Ok {A} (r : res A) (b : A) (s s' : world) :
  lift r s = Ok (b, s') → r = Ok b ∧ s' = s.
Proof. unfold lift. destruct r; intros H; inversion H. auto. Qed.

Lemma load_display_Ok p s d s' :
  load_display p s = Ok (d, s') → displays s !! p = Some d ∧ s' = s.
Proof.
  unfold load_display. destruct (displays s !! p); intros H; inversion H. auto.
Qed.

Lemma load_window_Ok p s w s' :
  load_window p s = Ok (w, s') → windows s !! p = Some w ∧ s' = s.
Proof.
  unfold load_window. destruct (windows s !! p); intros H; inversion H. auto.
Qed.

Lemma load_fb_Ok p s f s' :
  load_fb p s = Ok (f, s') → fbs s !! p = Some f ∧ s' = s.
Proof.
  unfold load_fb. destruct (fbs s !! p); intros H; inversion H. auto.
Qed.

Lemma emit_Ok r s u s' :
  emit r s = Ok (u, s') →
  s' = {| displays := displays s; windows := windows s; fbs := fbs s;
          next_id := next_id s; trace := r :: trace s |}.
Proof. unfold emit. intros H. inversion H. reflexivity. Qed.

Lemma new_proxy_Ok s p s' :
  new_proxy s = Ok (p, s') →
  p = next_id s ∧
  s' = {| displays := displays s; windows := windows s; fbs := fbs s;
          next_id := S (next_id s); trace := trace s |}.
Proof. unfold new_proxy. intros H. inversion H. auto. Qed.

Lemma store_display_Ok p d s u s' :
  store_display p d s = Ok (u, s') → s' = set_displays (<[p:=d]> (displays s)) s.
Proof. unfold store_display. intros H. inversion H. reflexivity. Qed.

Lemma store_window_Ok p w s u s' :
  store_window p w s = Ok (u, s') → s' = set_windows (<[p:=w]> (windows s)) s.
Proof. unfold store_window. intros H. inversion H. reflexivity. Qed.

Lemma store_fb_Ok p f s u s' :
  store_fb p f s = Ok (u, s') → s' = set_fbs (<[p:=f]> (fbs s)) s.
Proof. unfold store_fb. intros H. inversion H. reflexivity. Qed.

Lemma free_display_Ok p s u s' :
  free_display p s = Ok (u, s') → s' = set_displays (delete p (displays s)) s.
Proof. unfold free_display. intros H. inversion H. reflexivity. Qed.

Lemma free_fb_Ok p s u s' :
  free_fb p s = Ok (u, s') → s' = set_fbs (delete p (fbs s)) s.
Proof. unfold free_fb. intros H. inversion H. reflexivity. Qed.

(** One primitive step that ended in [Ok]: its result and the world after. *)
Ltac step H :=
  first
    [ apply ret_Ok in H as [-> ->]
    | apply ret_Ok in H as [? ->]
    | apply lift_Ok in H as [H ->]
    | apply load_display_Ok in H as [H ->]
    | apply load_window_Ok in H as [H ->]
    | apply load_fb_Ok in H as [H ->]
    | apply emit_Ok in H as ->
    | apply new_proxy_Ok in H as [-> ->]
    | apply store_display_Ok in H as ->
    | apply store_window_Ok in H as ->
    | apply store_fb_Ok in H as ->
    | apply free_display_Ok in H as ->
    | apply free_fb_Ok in H as -> ].

(** Splits a run [bind m k s = Ok _] into its first step and the rest. *)
Ltac unbind H :=
  let H1 := fresh "Hstep" in
  apply bind_Ok in H as (? & ? & H1 & H); try step H1.

Ltac unfold_world :=
  cbn [displays windows fbs next_id trace set_displays set_windows set_fbs] in *.

(** Runs through a sequence of primitive steps that ended in [Ok]. *)
Ltac mrun :=
  repeat match goal with
         | H : bind _ _ _ = Ok _ |- _ => apply bind_Ok in H as (? & ? & ? & H)
         | H : Fault _ = Ok _ |- _ => discriminate H
         | H : fail _ _ = Ok _ |- _ => discriminate H
         | H : _ _ = Ok _ |- _ => step H
         | H : ?t = Ok _ |- _ =>
             match t with
             | context [match ?x with _ => _ end] =>
                 lazymatch x with
                 | context [match _ with _ => _ end] => fail
                 | _ => destruct x eqn:?
                 end
             end
         end;
  unfold_world.

(** ** What each handler changes *)

Lemma window_recenter_effect w s r s' :
  window_recenter w s = Ok (r, s') →
  (r = 0 ∧ s' = s) ∨
  (r = 1 ∧ ∃ viewport vw vh,
     adds_requests [wp_viewport_set_destination viewport vw vh] s s' ∧
     next_id s' = next_id s).
Proof.
  unfold window_recenter. intros H. mrun; auto;
    right; (split; [reflexivity|]); eexists _, _, _; repeat split.
Qed.

Lemma window_commit_effect w s u s' :
  window_commit w s = Ok (u, s') →
  ∃ surface compositor buffer width height,
    adds_requests
      (commit_requests surface compositor buffer (next_id s) width height) s s'.
Proof.
  unfold window_commit. intros H. mrun; eexists _, _, _, _, _; repeat split.
Qed.

Lemma xdg_surface_handle_configure_effect w serial s u s' :
  xdg_surface_handle_configure w serial s = Ok (u, s') →
  ∃ win new,
    windows s !! w = Some win ∧
    displays s' = displays s ∧ fbs s' = fbs s ∧
    windows s' = <[w := with_w_configured true win]> (windows s) ∧
    trace s' = new ++ trace s ∧
    Forall (λ r, emitted_by (xdg_surface_configure w serial) r = true) new.
Proof.
  unfold xdg_surface_handle_configure. intros H.
  unbind H. rename Hstep into Hwin. rename x into win.
  unbind H. unbind H.
  apply bind_Ok in H as (r & s3 & Hrec & H).
  apply bind_Ok in H as (? & s4 & Hcommit & H).
  unbind H. step H. unfold_world.
  exists win.
  assert (∃ new3, trace s3 = new3 ++
            zxdg_surface_v6_ack_configure (w_xdg_surface win) serial :: trace s ∧
          displays s3 = displays s ∧ fbs s3 = fbs s ∧
          windows s3 = <[w:=with_w_configured true win]> (windows s) ∧
          Forall (λ r, emitted_by (xdg_surface_configure w serial) r = true) new3)
    as (new3 & Ht3 & Hd3 & Hf3 & Hw3 & Hall3).
  { apply window_recenter_effect in Hrec
      as [[_ ->]|(_ & vp & vw & vh & (? & ? & ? & ?) & _)].
    - exists []. repeat split. constructor.
    - eexists. repeat split; try eassumption. repeat constructor. }
  assert (∃ new4, adds_requests new4 s3 s4 ∧
          Forall (λ r, emitted_by (xdg_surface_configure w serial) r = true) new4)
    as (new4 & (Hd4 & Hw4 & Hf4 & Ht4) & Hall4).
  { destruct (r =? 0).
    - step Hcommit. exists []. repeat split. constructor.
    - apply window_commit_effect in Hcommit
        as (sf & co & bu & wd & ht & Hadd).
      eexists. split; [exact Hadd|]. repeat constructor. }
  eexists (_ :: new4 ++ new3 ++ [_]).
  split; [assumption|].
  split; [congruence|]. split; [congruence|]. split; [congruence|].
  split.
  - rewrite Ht4, Ht3. simpl. rewrite <- !app_assoc. reflexivity.
  - constructor; [reflexivity|].
    rewrite !Forall_app. repeat split; try assumption.
    repeat constructor.
Qed.

Ltac handlers :=
  unfold registry_handle_global, registry_handle_global_remove,
    xdg_shell_handle_ping, dmabuf_format, xdg_toplevel_handle_configure,
    xdg_toplevel_handle_close, create_succeeded, create_failed,
    buffer_release in *.

Ltac surface_configure_effect :=
  match goal with
  | H : xdg_surface_handle_configure _ _ _ = Ok _ |- _ =>
      apply xdg_surface_handle_configure_effect in H
        as (? & ? & ? & ? & ? & ? & ? & ?)
  end.

Lemma dispatch_trace e s u s' :
  dispatch e s = Ok (u, s') →
  ∃ new, trace s' = new ++ trace s ∧
         Forall (λ r, emitted_by e r = true) new.
Proof.
  intros H. destruct e; cbn [dispatch] in H; handlers; mrun;
    try (surface_configure_effect; eauto);
    solve [ exists []; split; [reflexivity | constructor]
          | eexists [_]; (split; [reflexivity | repeat constructor])
          | eexists [_; _]; (split; [reflexivity | repeat constructor]) ].
Qed.

(** Lookups in a map after a store. *)
Ltac lookups :=
  repeat match goal with
         | |- context [<[?k := _]> _ !! ?j] =>
             let Heq := fresh "Heq" in
             destruct (decide (k = j)) as [Heq|Heq];
             [ rewrite Heq in *; rewrite lookup_insert_eq
             | rewrite lookup_insert_ne by exact Heq ]
         end;
  simplify_eq.

(** Closes a case by an assumption that the event is another one. *)
Ltac absurd_event :=
  intros;
  match goal with
  | Hne : _ |- _ => solve [exfalso; eapply Hne; reflexivity]
  end.

(** Events never free a structure, never move the connection or the registry
    of a display, and never set [running] back to non-zero. *)
Lemma dispatch_display e s u s' d dd :
  dispatch e s = Ok (u, s') →
  displays s !! d = Some dd →
  ∃ dd', displays s' !! d = Some dd' ∧
         d_display dd' = d_display dd ∧
         d_registry dd' = d_registry dd ∧
         (d_running dd = 0 → d_running dd' = 0).
Proof.
  intros H Hd. destruct e; cbn [dispatch] in H; handlers; mrun;
    try surface_configure_effect;
    repeat match goal with
           | H : displays _ = _ |- _ => rewrite H
           end;
    lookups;
    solve [ eexists; split; [first [eassumption | reflexivity | congruence]
                            | simpl; auto ] ].
Qed.

(** An event leaves every window in place, with its display, its protocol
    objects and its shown buffer; only a surface configure of that window
    changes [configured], only a toplevel configure of it changes the size. *)
Lemma dispatch_window e s u s' w win :
  dispatch e s = Ok (u, s') →
  windows s !! w = Some win →
  ∃ win', windows s' !! w = Some win' ∧
          w_display win' = w_display win ∧
          w_surface win' = w_surface win ∧
          w_viewport win' = w_viewport win ∧
          w_xdg_surface win' = w_xdg_surface win ∧
          w_xdg_toplevel win' = w_xdg_toplevel win ∧
          w_buffer win' = w_buffer win ∧
          ((∀ serial, e ≠ xdg_surface_configure w serial) →
           w_configured win' = w_configured win) ∧
          ((∀ width height, e ≠ xdg_toplevel_configure w width height) →
           w_width win' = w_width win ∧ w_height win' = w_height win ∧
           w_size_set win' = w_size_set win).
Proof.
  intros H Hw. destruct e; cbn [dispatch] in H; handlers; mrun;
    try surface_configure_effect;
    repeat match goal with
           | H : windows _ = _ |- _ => rewrite H
           end;
    lookups;
    solve [ eexists; split; [first [eassumption | reflexivity]
                            | simpl; repeat split; auto; absurd_event ] ].
Qed.

(** An event leaves every framebuffer in place, with its window and its
    dimensions; only the success reply of its own import binds a buffer. *)
Lemma dispatch_fb e s u s' f fb :
  dispatch e s = Ok (u, s') →
  fbs s !! f = Some fb →
  ∃ fb', fbs s' !! f = Some fb' ∧
         fb_window fb' = fb_window fb ∧
         fb_width fb' = fb_width fb ∧
         fb_height fb' = fb_height fb ∧
         ((∀ params b, e ≠ params_created f params b) →
          fb_buffer fb = None → fb_buffer fb' = None).
Proof.
  intros H Hf. destruct e; cbn [dispatch] in H; handlers; mrun;
    try surface_configure_effect;
    repeat match goal with
           | H : fbs _ = _ |- _ => rewrite H
           end;
    lookups;
    solve [ eexists; split; [first [eassumption | reflexivity]
                            | simpl; repeat split; auto; absurd_event ] ].
Qed.

(** ** Machine arithmetic *)

Lemma wrap_int_small z : INT_MIN ≤ z ≤ INT_MAX → wrap_int z = z.
Proof.
  unfold wrap_int, INT_MIN, INT_MAX. intros Hz.
  rewrite Z.mod_small by lia. lia.
Qed.

(** A non-negative [int] is passed unchanged to a [uint32_t] parameter, a
    negative one arrives 2^32 larger. *)
Lemma to_uint32_int z :
  INT_MIN ≤ z ≤ INT_MAX →
  to_uint32 z = if z <? 0 then z + 4294967296 else z.
Proof.
  unfold to_uint32, INT_MIN, INT_MAX. intros Hz.
  destruct (Z.ltb_spec z 0).
  - rewrite <- (Z.mod_small (z + 4294967296) 4294967296) by lia.
    rewrite <- (Z.mod_add z 1 4294967296) by lia. reflexivity.
  - apply Z.mod_small. lia.
Qed.

(** [a * b / c] in [int] arithmetic, when nothing overflows. *)
Lemma int_scale a b c :
  0 < a → 0 < b → 0 < c → a * b ≤ INT_MAX →
  int_div (int_mul a b) c = Ok (a * b / c).
Proof.
  intros Ha Hb Hc Hmax. unfold int_div, int_mul.
  rewrite wrap_int_small by (unfold INT_MIN; lia).
  destruct (Z.eqb_spec c 0) as [->|_]; [lia|].
  destruct (Z.eqb_spec (a * b) INT_MIN) as [Hmin|_];
    [unfold INT_MIN in Hmin; lia|].
  simpl. rewrite Z.quot_div_nonneg by lia. reflexivity.
Qed.

(** ** The viewport destination *)

Lemma window_recenter_scaled s w win f fb viewport :
  windows s !! w = Some win →
  w_buffer win = Some f →
  fbs s !! f = Some fb →
  w_viewport win = Some viewport →
  0 < w_width win → 0 < w_height win →
  0 < fb_width fb → 0 < fb_height fb →
  scaling_product (w_width win) (w_height win) (fb_width fb) (fb_height fb)
    ≤ INT_MAX →
  window_recenter w s =
    Ok (1, request_made
             (wp_viewport_set_destination viewport
                (scaled_destination (w_width win) (w_height win)
                   (fb_width fb) (fb_height fb)).1
                (scaled_destination (w_width win) (w_height win)
                   (fb_width fb) (fb_height fb)).2) s).
Proof.
  intros Hw Hb Hf Hv HW HH Hbw Hbh Hmax.
  unfold window_recenter, scaled_destination, scaling_product in *.
  unfold bind at 1. unfold load_window. rewrite Hw, Hb, Hv.
  destruct (Z.leb_spec (w_width win) 0); [lia|].
  destruct (Z.leb_spec (w_height win) 0); [lia|]. simpl.
  unfold bind at 1. unfold load_fb. rewrite Hf.
  destruct (fb_width fb >? fb_height fb); unfold bind, lift, ret;
    rewrite int_scale by assumption; reflexivity.
Qed.

Lemma window_recenter_skipped s w win :
  windows s !! w = Some win →
  w_buffer win = None ∨ w_viewport win = None ∨
    w_width win ≤ 0 ∨ w_height win ≤ 0 →
  window_recenter w s = Ok (0, s).
Proof.
  intros Hw Hmiss. unfold window_recenter, bind, load_window. rewrite Hw.
  destruct (w_buffer win) as [f|]; [|reflexivity].
  destruct (w_viewport win) as [vp|]; [|reflexivity].
  destruct Hmiss as [?|[?|[Hle|Hle]]]; try discriminate.
  - destruct (Z.leb_spec (w_width win) 0); [reflexivity | lia].
  - destruct (Z.leb_spec (w_height win) 0); [|lia].
    rewrite orb_true_r. reflexivity.
Qed.

(** C3 (as amended).  For a window with a viewport, a shown framebuffer and
    size W>0, H>0, and a buffer of size bw>0, bh>0 such that the product the
    code forms (W*bh when bw > bh, H*bw otherwise) fits in an [int],
    [window_recenter] sets the destination (W, W*bh/bw) when bw > bh and
    (H*bw/bh, H) otherwise, and answers 1; when the framebuffer, the viewport
    or a positive window size is missing it sets nothing and answers 0. *)
Theorem C3_viewport_destination s w win :
  windows s !! w = Some win →
  (∀ f fb viewport,
     w_buffer win = Some f → fbs s !! f = Some fb →
     w_viewport win = Some viewport →
     0 < w_width win → 0 < w_height win →
     0 < fb_width fb → 0 < fb_height fb →
     scaling_product (w_width win) (w_height win) (fb_width fb) (fb_height fb)
       ≤ INT_MAX →
     window_recenter w s =
       Ok (1, request_made
                (wp_viewport_set_destination viewport
                   (if fb_width fb >? fb_height fb then w_width win
                    else w_height win * fb_width fb / fb_height fb)
                   (if fb_width fb >? fb_height fb
                    then w_width win * fb_height fb / fb_width fb
                    else w_height win)) s)) ∧
  (w_buffer win = None ∨ w_viewport win = None ∨
     w_width win ≤ 0 ∨ w_height win ≤ 0 →
   window_recenter w s = Ok (0, s)).
Proof.
  intros Hw. split.
  - intros f fb vp Hb Hf Hv HW HH Hbw Hbh Hmax.
    rewrite (window_recenter_scaled s w win f fb vp) by assumption.
    unfold scaled_destination.
    destruct (fb_width fb >? fb_height fb); reflexivity.
  - apply window_recenter_skipped. exact Hw.
Qed.

Lemma C3_viewport_destination_witness :
  window_recenter 20%nat
    (example_world (example_window (Some 10%nat) (Some 30%nat) 720 1280 true true)
       (example_fb 1080 1920)) =
  Ok (1, request_made (wp_viewport_set_destination 10%nat 720 1280)
           (example_world
              (example_window (Some 10%nat) (Some 30%nat) 720 1280 true true)
              (example_fb 1080 1920))).
Proof.
  destruct (C3_viewport_destination
              (example_world
                 (example_window (Some 10%nat) (Some 30%nat) 720 1280 true true)
                 (example_fb 1080 1920))
              20%nat
              (example_window (Some 10%nat) (Some 30%nat) 720 1280 true true)
              eq_refl) as [Hset _].
  apply (Hset 30%nat (example_fb 1080 1920) 10%nat);
    first [reflexivity | vm_compute; congruence].
Defined.

(** C3, as stated, fails: a window of size 1x1 with a viewport shows a
    framebuffer of size 0x0; the second branch divides by [fb->height = 0],
    and no destination is set.  It fails on overflow too: a window 2000000
    wide showing a 1920x1080 buffer gets the height -1111962, where
    W*bh/bw = 1125000. *)
Lemma C3_counterexample :
  window_recenter 20%nat
    (example_world (example_window (Some 10%nat) (Some 30%nat) 1 1 true true)
       (example_fb 0 0)) = Fault DivisionByZero ∧
  window_recenter 20%nat
    (example_world
       (example_window (Some 10%nat) (Some 30%nat) 2000000 1000 true true)
       (example_fb 1920 1080)) =
  Ok (1, request_made (wp_viewport_set_destination 10%nat 2000000 (-1111962))
           (example_world
              (example_window (Some 10%nat) (Some 30%nat) 2000000 1000 true true)
              (example_fb 1920 1080))) ∧
  2000000 * 1080 / 1920 = 1125000.
Proof. repeat split. Qed.

(** C4 (as amended).  For window sizes W>0, H>0 and buffer sizes bw>0, bh>0
    whose scaling product fits in an [int], the destination (vw, vh) that
    [window_recenter] sets satisfies |vw*bh - vh*bw| < max(bw, bh); it fills
    the window in the dimension the code scales to (vw = W when bw > bh,
    vh = H otherwise), and the other dimension is bounded by that same
    window dimension (vh <= W, resp. vw <= H), not by its own. *)
Theorem C4_aspect_ratio s w win f fb viewport :
  windows s !! w = Some win →
  w_buffer win = Some f → fbs s !! f = Some fb →
  w_viewport win = Some viewport →
  0 < w_width win → 0 < w_height win →
  0 < fb_width fb → 0 < fb_height fb →
  scaling_product (w_width win) (w_height win) (fb_width fb) (fb_height fb)
    ≤ INT_MAX →
  ∃ vw vh,
    window_recenter w s =
      Ok (1, request_made (wp_viewport_set_destination viewport vw vh) s) ∧
    Z.abs (vw * fb_height fb - vh * fb_width fb)
      < Z.max (fb_width fb) (fb_height fb) ∧
    (fb_width fb > fb_height fb → vw = w_width win ∧ 0 ≤ vh ≤ w_width win) ∧
    (fb_width fb ≤ fb_height fb → vh = w_height win ∧ 0 ≤ vw ≤ w_height win).
Proof.
  intros Hw Hb Hf Hv HW HH Hbw Hbh Hmax.
  eexists _, _. split.
  { apply (window_recenter_scaled s w win f fb viewport); assumption. }
  unfold scaled_destination.
  set (W := w_width win) in *. set (H := w_height win) in *.
  set (bw := fb_width fb) in *. set (bh := fb_height fb) in *.
  destruct (Z.gtb_spec bw bh) as [Hgt|Hle]; simpl.
  - assert (Hmod : W * bh - W * bh / bw * bw = (W * bh) mod bw)
      by (rewrite Z.mod_eq by lia; lia).
    pose proof (Z.mod_pos_bound (W * bh) bw ltac:(lia)) as Hbound.
    assert (0 ≤ W * bh / bw) by (apply Z.div_pos; nia).
    assert (W * bh / bw ≤ W).
    { apply Z.div_le_upper_bound; [lia | nia]. }
    repeat split; try lia.
  - assert (Hmod : H * bw - H * bw / bh * bh = (H * bw) mod bh)
      by (rewrite Z.mod_eq by lia; lia).
    pose proof (Z.mod_pos_bound (H * bw) bh ltac:(lia)) as Hbound.
    assert (0 ≤ H * bw / bh) by (apply Z.div_pos; nia).
    assert (H * bw / bh ≤ H).
    { apply Z.div_le_upper_bound; [lia | nia]. }
    repeat split; try lia.
Qed.

Lemma C4_aspect_ratio_witness :
  ∃ vw vh,
    window_recenter 20%nat
      (example_world
         (example_window (Some 10%nat) (Some 30%nat) 1920 1080 true true)
         (example_fb 640 480)) =
      Ok (1, request_made (wp_viewport_set_destination 10%nat vw vh)
               (example_world
                  (example_window (Some 10%nat) (Some 30%nat) 1920 1080 true true)
                  (example_fb 640 480))) ∧
    Z.abs (vw * 480 - vh * 640) < Z.max 640 480 ∧
    (640 > 480 → vw = 1920 ∧ 0 ≤ vh ≤ 1920) ∧
    (640 ≤ 480 → vh = 1080 ∧ 0 ≤ vw ≤ 1080).
Proof.
  apply (C4_aspect_ratio
           (example_world
              (example_window (Some 10%nat) (Some 30%nat) 1920 1080 true true)
              (example_fb 640 480))
           20%nat
           (example_window (Some 10%nat) (Some 30%nat) 1920 1080 true true)
           30%nat (example_fb 640 480) 10%nat);
    first [reflexivity | vm_compute; congruence].
Defined.

(** C4, as stated, fails: a 1920x1080 window showing a 640x480 buffer gets
    the destination (1920, 1440), and 1440 > 1080 = H.  And where the
    product overflows the ratio bound fails too: a 2000000x1000 window
    showing a 1920x1080 buffer gets (2000000, -1111962). *)
Lemma C4_counterexample :
  window_recenter 20%nat
    (example_world
       (example_window (Some 10%nat) (Some 30%nat) 1920 1080 true true)
       (example_fb 640 480)) =
  Ok (1, request_made (wp_viewport_set_destination 10%nat 1920 1440)
           (example_world
              (example_window (Some 10%nat) (Some 30%nat) 1920 1080 true true)
              (example_fb 640 480))) ∧
  ¬ (1440 ≤ 1080) ∧
  window_recenter 20%nat
    (example_world
       (example_window (Some 10%nat) (Some 30%nat) 2000000 1000 true true)
       (example_fb 1920 1080)) =
  Ok (1, request_made (wp_viewport_set_destination 10%nat 2000000 (-1111962))
           (example_world
              (example_window (Some 10%nat) (Some 30%nat) 2000000 1000 true true)
              (example_fb 1920 1080))) ∧
  ¬ (Z.abs (2000000 * 1080 - (-1111962) * 1920) < Z.max 1920 1080).
Proof. split; [reflexivity | split; [lia | split; [reflexivity | lia]]]. Qed.

(** ** Running the model forward *)

Lemma bind_step {A B} (m : M A) (k : A → M B) s a s1 :
  m s = Ok (a, s1) → bind m k s = k a s1.
Proof. unfold bind. intros ->. reflexivity. Qed.

Lemma load_display_run p s d :
  displays s !! p = Some d → load_display p s = Ok (d, s).
Proof. unfold load_display. intros ->. reflexivity. Qed.

Lemma load_window_run p s w :
  windows s !! p = Some w → load_window p s = Ok (w, s).
Proof. unfold load_window. intros ->. reflexivity. Qed.

Lemma load_fb_run p s f :
  fbs s !! p = Some f → load_fb p s = Ok (f, s).
Proof. unfold load_fb. intros ->. reflexivity. Qed.

Ltac lookup_now :=
  unfold_world;
  first [ eassumption
        | apply lookup_insert_eq
        | rewrite lookup_insert_eq; reflexivity
        | reflexivity ].

(** Proves [m s = Ok (?a, ?s')] for a run [m] whose inputs are known. *)
Ltac run_step :=
  cbn beta;
  first [ apply load_fb_run; lookup_now
        | apply load_window_run; lookup_now
        | apply load_display_run; lookup_now
        | reflexivity
        | erewrite bind_step by run_step; run_step ].

(** Executes the first step of a run whose inputs are known. *)
Ltac fwd :=
  erewrite bind_step by run_step;
  cbn [displays windows fbs next_id trace set_displays set_windows set_fbs].

Lemma window_commit_run s w win d buffer :
  windows s !! w = Some win →
  displays s !! w_display win = Some d →
  match w_buffer win with
  | Some f => ∃ fb, fbs s !! f = Some fb ∧ buffer = fb_buffer fb
  | None => buffer = None
  end →
  window_commit w s =
    Ok (tt, {| displays := displays s; windows := windows s; fbs := fbs s;
               next_id := S (next_id s);
               trace := commit_requests (w_surface win) (d_compositor d) buffer
                          (next_id s) (w_width win) (w_height win) ++ trace s |}).
Proof.
  intros Hw Hd Hb. unfold window_commit.
  repeat fwd.
  destruct (w_buffer win) as [f|].
  - destruct Hb as (fb & Hf & ->).
    repeat fwd. reflexivity.
  - subst buffer. repeat fwd. reflexivity.
Qed.

(** ** Showing a framebuffer *)




(** ** The toplevel configure handler *)

(** C7 (as amended).  On a window that has a viewport, a toplevel configure
    event with both dimensions strictly positive and differing from the
    current size stores the new width and height and sets [size_set]; an
    event with a non-positive dimension, and any event on a window without a
    viewport, leaves the window (and the rest of the world) unchanged. *)
Theorem C7_toplevel_configure s w win width height :
  windows s !! w = Some win →
  (0 < width → 0 < height → is_Some (w_viewport win) →
   w_width win ≠ width ∨ w_height win ≠ height →
   xdg_toplevel_handle_configure w width height s =
     Ok (tt, set_windows
               (<[w := with_w_size_set true (with_w_size width height win)]>
                  (windows s)) s)) ∧
  (width ≤ 0 ∨ height ≤ 0 ∨ w_viewport win = None →
   xdg_toplevel_handle_configure w width height s = Ok (tt, s)).
Proof.
  intros Hw. unfold xdg_toplevel_handle_configure, bind, load_window.
  rewrite Hw. split.
  - intros Hwd Hht [vp Hvp] Hdiff. rewrite Hvp. simpl.
    destruct (Z.leb_spec width 0); [lia|].
    destruct (Z.leb_spec height 0); [lia|]. simpl.
    destruct (Z.eqb_spec (w_width win) width);
      destruct (Z.eqb_spec (w_height win) height); simpl;
      try reflexivity.
    destruct Hdiff; contradiction.
  - intros [Hle|[Hle|Hnone]].
    + destruct (Z.leb_spec width 0); [reflexivity | lia].
    + destruct (Z.leb_spec height 0); [|lia].
      rewrite orb_true_r. reflexivity.
    + rewrite Hnone. simpl. rewrite !orb_true_r. reflexivity.
Qed.

Lemma C7_toplevel_configure_witness :
  xdg_toplevel_handle_configure 20%nat 1280 720
    (example_world_no_fb (example_window (Some 10%nat) None 0 0 false false)) =
  Ok (tt, set_windows
            (<[20%nat := example_window (Some 10%nat) None 1280 720 true false]>
               {[ 20%nat := example_window (Some 10%nat) None 0 0 false false ]})
            (example_world_no_fb
               (example_window (Some 10%nat) None 0 0 false false))).
Proof.
  destruct (C7_toplevel_configure
              (example_world_no_fb
                 (example_window (Some 10%nat) None 0 0 false false))
              20%nat (example_window (Some 10%nat) None 0 0 false false)
              1280 720 eq_refl) as [Hset _].
  apply Hset; [lia | lia | by eexists | left; vm_compute; congruence].
Defined.

(** C7, as stated, fails: a window without a viewport (the compositor has no
    [wp_viewporter]) receives the configure event (800, 600), both positive
    and different from its size 0x0; its size and [size_set] stay as they
    were. *)
Lemma C7_counterexample :
  xdg_toplevel_handle_configure 20%nat 800 600
    (example_world_no_fb (example_window None None 0 0 false false)) =
  Ok (tt, example_world_no_fb (example_window None None 0 0 false false)).
Proof. reflexivity. Qed.

(** ** The format table *)

(** While fewer than 32 formats are recorded, the next one is stored at the
    index [drm_format_count], inside the array. *)
Lemma dmabuf_format_in_bounds s d dd format :
  displays s !! d = Some dd →
  length (d_drm_formats dd) = DRM_FORMATS_LEN →
  0 ≤ d_drm_format_count dd < 32 →
  dmabuf_format d format s =
    Ok (tt, set_displays
              (<[d := with_d_formats
                        (<[Z.to_nat (d_drm_format_count dd) := format]>
                           (d_drm_formats dd))
                        (d_drm_format_count dd + 1) dd]> (displays s)) s).
Proof.
  intros Hd Hlen Hn. unfold dmabuf_format, bind, load_display. rewrite Hd.
  rewrite Hlen. unfold DRM_FORMATS_LEN.
  destruct (Z.ltb_spec 32 (d_drm_format_count dd)); [lia|].
  destruct (Z.ltb_spec (d_drm_format_count dd) 0); [lia|].
  destruct (Z.leb_spec (Z.of_nat 32) (d_drm_format_count dd)); [lia|].
  simpl. unfold int_add. rewrite wrap_int_small by (unfold INT_MIN, INT_MAX; lia).
  reflexivity.
Qed.

(** With 32 formats recorded the assertion [drm_format_count <= 32] still
    holds, and the store goes to [drm_formats[32]], one past the array. *)
Lemma dmabuf_format_at_capacity s d dd format :
  displays s !! d = Some dd →
  length (d_drm_formats dd) = DRM_FORMATS_LEN →
  d_drm_format_count dd = 32 →
  dmabuf_format d format s = Fault (OutOfBounds 32).
Proof.
  intros Hd Hlen Hn. unfold dmabuf_format, bind, load_display. rewrite Hd.
  rewrite Hlen, Hn. reflexivity.
Qed.

(** On a table with [n] recorded formats, [format_is_supported] is the
    membership test among those. *)
Lemma format_is_supported_loop_spec formats format i n :
  (i + n ≤ length formats)%nat →
  format_is_supported_loop formats format i n =
    Ok (if bool_decide (format ∈ take n (drop i formats)) then 1 else 0).
Proof.
  revert i. induction n as [|n IH]; intros i Hlen;
    cbn [format_is_supported_loop].
  - rewrite take_0. rewrite bool_decide_eq_false_2; [reflexivity|].
    apply not_elem_of_nil.
  - destruct (formats !! i) as [x|] eqn:Hx.
    2: { apply lookup_ge_None in Hx. lia. }
    rewrite (drop_S _ _ _ Hx). cbn [take].
    destruct (Z.eqb_spec x format) as [->|Hne].
    + rewrite bool_decide_eq_true_2; [reflexivity | apply list_elem_of_here].
    + rewrite IH by lia.
      destruct (bool_decide (format ∈ take n (drop (S i) formats))) eqn:Hin.
      * apply bool_decide_eq_true in Hin.
        rewrite bool_decide_eq_true_2; [reflexivity|].
        by apply list_elem_of_further.
      * apply bool_decide_eq_false in Hin.
        rewrite bool_decide_eq_false_2; [reflexivity|].
        intros [?|?]%elem_of_cons; [congruence | contradiction].
Qed.

Lemma format_is_supported_spec s d dd format :
  displays s !! d = Some dd →
  0 ≤ d_drm_format_count dd ≤ Z.of_nat (length (d_drm_formats dd)) →
  format_is_supported d format s =
    Ok (if bool_decide
             (format ∈ take (Z.to_nat (d_drm_format_count dd))
                        (d_drm_formats dd))
        then 1 else 0, s).
Proof.
  intros Hd Hn. unfold format_is_supported, bind, load_display, lift.
  rewrite Hd. rewrite format_is_supported_loop_spec by lia.
  rewrite drop_0. reflexivity.
Qed.

(** C8.  A compositor advertises 33 pixel formats.  The first 32 fill
    [drm_formats[0..31]]; for the 33rd the assertion
    [drm_format_count <= 32] passes and the store goes to index 32, outside
    the 32-entry array. *)
Theorem C8_format_table_overrun :
  recorded_formats 10%nat
    (dispatch_all (format_advertisements 10%nat 32)
       (example_world_no_fb
          (example_window (Some 10%nat) None 0 0 false false))) = Some 32 ∧
  dispatch_all (format_advertisements 10%nat 33)
    (example_world_no_fb (example_window (Some 10%nat) None 0 0 false false))
    = Fault (OutOfBounds 32).
Proof. split; vm_compute; reflexivity. Qed.

(** ** Allocation failures *)

(** C9.  When [calloc] returns NULL, [display_create] and
    [display_create_window] return NULL and leave the world as it was; but
    [window_create_buffer] does not test the result: it assigns [fb->index]
    through the null pointer. *)
Theorem C9_out_of_memory :
  (∀ connected events s,
     display_create None connected events s = Ok (None, s)) ∧
  (∀ display s,
     display_create_window display None s = Ok (None, s)) ∧
  (∀ window index fd offset format width height stride events s,
     window_create_buffer window index fd offset format width height stride
       None events s = Fault NullDereference).
Proof.
  split; [|split].
  - intros connected events s. reflexivity.
  - intros display s. reflexivity.
  - intros window index fd offset format width height stride events s.
    reflexivity.
Qed.

(** ** The import handshake *)

(** The two replies of the handshake, delivered. *)
Lemma dispatch_params_created s f fb params b :
  fbs s !! f = Some fb →
  dispatch (params_created f params b) s =
    Ok (tt, {| displays := displays s; windows := windows s;
               fbs := <[f := with_fb_buffer (Some b) fb]> (fbs s);
               next_id := next_id s;
               trace := zwp_linux_buffer_params_v1_destroy params :: trace s |}).
Proof.
  intros Hf. cbn [dispatch]. rewrite Hf. unfold create_succeeded.
  repeat fwd. reflexivity.
Qed.

Lemma dispatch_params_failed s f fb params win d :
  fbs s !! f = Some fb →
  windows s !! fb_window fb = Some win →
  displays s !! w_display win = Some d →
  dispatch (params_failed f params) s =
    Ok (tt, {| displays := <[w_display win := with_d_running 0 d]> (displays s);
               windows := windows s;
               fbs := <[f := with_fb_buffer None fb]> (fbs s);
               next_id := next_id s;
               trace := err "zwp_linux_buffer_params.create failed"
                        :: zwp_linux_buffer_params_v1_destroy params
                        :: trace s |}).
Proof.
  intros Hf Hw Hd. cbn [dispatch]. rewrite Hf. unfold create_failed.
  repeat fwd. reflexivity.
Qed.

(** C10.  Whatever the display's format table holds and whatever format is
    asked for, [window_create_buffer] creates the parameters object, adds the
    one plane (fd, 0, offset, stride, 0, 0), offset and stride converted to
    [uint32_t], and requests the buffer; the
    compositor's reply alone decides the result: the framebuffer on
    [created], NULL on [failed]. *)
Theorem C10_import_ignores_format_table s w win d index fd offset format
  width height stride f :
  windows s !! w = Some win →
  displays s !! w_display win = Some d →
  (∀ b, ∃ s',
     window_create_buffer w index fd offset format width height stride
       (Some f) [params_created f (next_id s) b] s = Ok (Some f, s') ∧
     trace s' =
       zwp_linux_buffer_params_v1_destroy (next_id s)
       :: import_requests (d_dmabuf d) (d_display d) (next_id s)
            fd offset format width height stride ++ trace s ∧
     fbs s' !! f =
       Some (with_fb_buffer (Some b)
               (new_fb w index fd offset format width height stride)) ∧
     displays s' = displays s) ∧
  (∃ s',
     window_create_buffer w index fd offset format width height stride
       (Some f) [params_failed f (next_id s)] s = Ok (None, s') ∧
     trace s' =
       err "zwp_linux_buffer_params.create failed"
       :: zwp_linux_buffer_params_v1_destroy (next_id s)
       :: import_requests (d_dmabuf d) (d_display d) (next_id s)
            fd offset format width height stride ++ trace s ∧
     fbs s' !! f = None ∧
     displays s' = <[w_display win := with_d_running 0 d]> (displays s)).
Proof.
  intros Hw Hd. unfold window_create_buffer. split.
  - intros b. repeat fwd. unfold roundtrip.
    erewrite bind_step.
    2: { fwd. cbn [dispatch_all]. erewrite bind_step; [reflexivity|].
         apply dispatch_params_created. apply lookup_insert_eq. }
    fwd. cbn [is_null fb_buffer with_fb_buffer].
    eexists. split; [reflexivity|]. unfold_world.
    split; [reflexivity|]. split; [|reflexivity].
    rewrite lookup_insert_eq. reflexivity.
  - repeat fwd. unfold roundtrip.
    erewrite bind_step.
    2: { fwd. cbn [dispatch_all]. erewrite bind_step; [reflexivity|].
         eapply dispatch_params_failed.
         - apply lookup_insert_eq.
         - exact Hw.
         - exact Hd. }
    fwd. cbn [is_null fb_buffer with_fb_buffer].
    unfold fb_destroy. repeat fwd.
    eexists. split; [reflexivity|]. unfold_world.
    split; [reflexivity|]. split; [|reflexivity].
    apply lookup_delete_eq.
Qed.

Lemma C10_import_ignores_format_table_witness :
  format_is_supported 10%nat 842094158
    (example_world_no_fb (example_window (Some 10%nat) None 0 0 false false))
  = Ok (0, example_world_no_fb
             (example_window (Some 10%nat) None 0 0 false false)) ∧
  ∃ s',
    window_create_buffer 20%nat 0 5 0 842094158 1920 1080 1920 (Some 30%nat)
      [params_created 30%nat 11%nat 100%nat]
      (example_world_no_fb (example_window (Some 10%nat) None 0 0 false false))
    = Ok (Some 30%nat, s') ∧
    trace s' =
      zwp_linux_buffer_params_v1_destroy 11%nat
      :: import_requests (Some 6%nat) (Some 1%nat) 11%nat
           5 0 842094158 1920 1080 1920 ++ [] ∧
    fbs s' !! 30%nat =
      Some (with_fb_buffer (Some 100%nat)
              (new_fb 20%nat 0 5 0 842094158 1920 1080 1920)) ∧
    displays s' = {[ 10%nat := example_display ]}.
Proof.
  split; [reflexivity|].
  destruct (C10_import_ignores_format_table
              (example_world_no_fb
                 (example_window (Some 10%nat) None 0 0 false false))
              20%nat (example_window (Some 10%nat) None 0 0 false false)
              example_display 0 5 0 842094158 1920 1080 1920 30%nat
              eq_refl eq_refl) as [Hcreated _].
  exact (Hcreated 100%nat).
Defined.

(** ** A whole round trip *)

Lemma dispatch_all_app l1 l2 s u s' :
  dispatch_all (l1 ++ l2) s = Ok (u, s') ↔
  ∃ s1, dispatch_all l1 s = Ok (tt, s1) ∧ dispatch_all l2 s1 = Ok (u, s').
Proof.
  revert s. induction l1 as [|e l1 IH]; intros s; simpl.
  - split.
    + intros H. exists s. split; [reflexivity | exact H].
    + intros (s1 & H1 & H2). apply ret_Ok in H1 as [_ ->]. exact H2.
  - rewrite !bind_Ok. split.
    + intros (a & s0 & He & H). apply IH in H as (s1 & H1 & H2).
      exists s1. split; [|exact H2]. apply bind_Ok. eauto.
    + intros (s1 & H1 & H2). apply bind_Ok in H1 as (a & s0 & He & H1).
      exists a, s0. split; [exact He|]. apply IH. eauto.
Qed.

Lemma dispatch_all_trace events s u s' :
  dispatch_all events s = Ok (u, s') →
  ∃ new, trace s' = new ++ trace s ∧
         Forall (λ r, ∃ e, e ∈ events ∧ emitted_by e r = true) new.
Proof.
  revert s. induction events as [|e events IH]; intros s H; simpl in H.
  - apply ret_Ok in H as [_ ->]. exists []. split; [reflexivity|constructor].
  - apply bind_Ok in H as ([] & s1 & He & H).
    apply dispatch_trace in He as (new1 & Ht1 & Hall1).
    apply IH in H as (new2 & Ht2 & Hall2).
    exists (new2 ++ new1). split.
    + rewrite Ht2, Ht1, app_assoc. reflexivity.
    + apply Forall_app. split.
      * eapply Forall_impl; [exact Hall2|]. intros r (e' & Hin & Hr).
        exists e'. split; [by apply list_elem_of_further | exact Hr].
      * eapply Forall_impl; [exact Hall1|]. intros r Hr.
        exists e. split; [apply list_elem_of_here | exact Hr].
Qed.

Lemma dispatch_all_display events s u s' d dd :
  dispatch_all events s = Ok (u, s') →
  displays s !! d = Some dd →
  ∃ dd', displays s' !! d = Some dd' ∧
         d_display dd' = d_display dd ∧
         d_registry dd' = d_registry dd ∧
         (d_running dd = 0 → d_running dd' = 0).
Proof.
  revert s dd. induction events as [|e events IH]; intros s dd H Hd;
    simpl in H.
  - apply ret_Ok in H as [_ ->]. eauto.
  - apply bind_Ok in H as ([] & s1 & He & H).
    destruct (dispatch_display _ _ _ _ _ _ He Hd) as (d1 & Hd1 & ? & ? & ?).
    destruct (IH _ _ H Hd1) as (d2 & Hd2 & ? & ? & ?).
    exists d2. repeat split; [assumption | congruence | congruence | auto].
Qed.

Lemma dispatch_all_window events s u s' w win :
  dispatch_all events s = Ok (u, s') →
  windows s !! w = Some win →
  ∃ win', windows s' !! w = Some win' ∧
          w_display win' = w_display win ∧
          w_surface win' = w_surface win ∧
          w_viewport win' = w_viewport win ∧
          w_xdg_surface win' = w_xdg_surface win ∧
          w_xdg_toplevel win' = w_xdg_toplevel win ∧
          w_buffer win' = w_buffer win ∧
          (Forall (λ e, ∀ serial, e ≠ xdg_surface_configure w serial) events →
           w_configured win' = w_configured win) ∧
          (Forall (λ e, ∀ width height,
                     e ≠ xdg_toplevel_configure w width height) events →
           w_width win' = w_width win ∧ w_height win' = w_height win ∧
           w_size_set win' = w_size_set win).
Proof.
  revert s win. induction events as [|e events IH]; intros s win H Hw;
    simpl in H.
  - apply ret_Ok in H as [_ ->]. exists win. repeat split; auto.
  - apply bind_Ok in H as ([] & s1 & He & H).
    destruct (dispatch_window _ _ _ _ _ _ He Hw)
      as (w1 & Hw1 & ? & ? & ? & ? & ? & ? & Hc1 & Hs1).
    destruct (IH _ _ H Hw1)
      as (w2 & Hw2 & ? & ? & ? & ? & ? & ? & Hc2 & Hs2).
    exists w2. split; [assumption|].
    do 6 (split; [congruence|]). split.
    + intros [Hhd Htl]%Forall_cons. rewrite Hc2, Hc1; auto.
    + intros [Hhd Htl]%Forall_cons.
      destruct (Hs1 Hhd) as (? & ? & ?). destruct (Hs2 Htl) as (? & ? & ?).
      repeat split; congruence.
Qed.

Lemma dispatch_all_fb events s u s' f fb :
  dispatch_all events s = Ok (u, s') →
  fbs s !! f = Some fb →
  ∃ fb', fbs s' !! f = Some fb' ∧
         fb_window fb' = fb_window fb ∧
         fb_width fb' = fb_width fb ∧
         fb_height fb' = fb_height fb ∧
         (Forall (λ e, ∀ params b, e ≠ params_created f params b) events →
          fb_buffer fb = None → fb_buffer fb' = None).
Proof.
  revert s fb. induction events as [|e events IH]; intros s fb H Hf;
    simpl in H.
  - apply ret_Ok in H as [_ ->]. exists fb. repeat split; auto.
  - apply bind_Ok in H as ([] & s1 & He & H).
    destruct (dispatch_fb _ _ _ _ _ _ He Hf) as (f1 & Hf1 & ? & ? & ? & Hb1).
    destruct (IH _ _ H Hf1) as (f2 & Hf2 & ? & ? & ? & Hb2).
    exists f2. split; [assumption|].
    do 3 (split; [congruence|]).
    intros [Hhd Htl]%Forall_cons Hnone. auto.
Qed.

(** No handler destroys a buffer. *)
Lemma emitted_by_not_buffer_destroy e b :
  emitted_by e (wl_buffer_destroy b) = false.
Proof. destruct e; reflexivity. Qed.

(** ** Import failure *)

(** C1.  An import whose round trip delivers the compositor's [failed] reply
    (among any other events, none of them a later [created] for the same
    framebuffer) returns NULL; the parameters object has been destroyed; the
    display's [running] is 0, which is what [display_is_running] then
    answers; and the framebuffer's buffer handle is null when the round trip
    is over, so that freeing the framebuffer destroys no buffer. *)
Theorem C1_import_failure s w win d index fd offset format width height
  stride f pre post r s' :
  windows s !! w = Some win →
  displays s !! w_display win = Some d →
  Forall (λ e, ∀ params b, e ≠ params_created f params b) post →
  window_create_buffer w index fd offset format width height stride (Some f)
    (pre ++ params_failed f (next_id s) :: post) s = Ok (r, s') →
  r = None ∧
  fbs s' !! f = None ∧
  zwp_linux_buffer_params_v1_destroy (next_id s) ∈ trace s' ∧
  (∀ b, wl_buffer_destroy b ∈ trace s' → wl_buffer_destroy b ∈ trace s) ∧
  display_is_running (w_display win) s' = Ok (0, s') ∧
  ∃ s1 fb1, fbs s1 !! f = Some fb1 ∧ fb_buffer fb1 = None ∧
            fb_destroy f s1 = Ok (tt, s').
Proof.
  intros Hw Hd Hpost H. unfold window_create_buffer in H.
  do 7 unbind H. unfold_world. simplify_eq.
  apply bind_Ok in H as ([] & s1 & Hrt & H).
  unfold roundtrip in Hrt. unbind Hrt. unfold_world.
  apply dispatch_all_app in Hrt as (sa & Hpre & Hrest).
  cbn [dispatch_all] in Hrest.
  apply bind_Ok in Hrest as ([] & sb & Hfail & Hpost_run).
  (* the world when the reply arrives *)
  destruct (dispatch_all_fb _ _ _ _ f _ Hpre (lookup_insert_eq _ _ _))
    as (fba & Hfa & Hfwa & _).
  cbn [fb_window] in Hfwa.
  destruct (dispatch_all_window _ _ _ _ w win Hpre Hw)
    as (wina & Hwa & Hwda & _).
  destruct (dispatch_all_display _ _ _ _ (w_display win) _ Hpre Hd)
    as (da & Hda & _).
  apply dispatch_all_trace in Hpre as (new1 & Ht1 & Hall1).
  unfold_world.
  rewrite (dispatch_params_failed sa f fba (next_id s) wina da) in Hfail
    by congruence.
  inversion Hfail; subst sb; clear Hfail.
  rewrite Hwda in Hpost_run.
  (* the rest of the round trip *)
  destruct (dispatch_all_fb _ _ _ _ f _ Hpost_run (lookup_insert_eq _ _ _))
    as (fb1 & Hf1 & _ & _ & _ & Hnull).
  specialize (Hnull Hpost eq_refl).
  destruct (dispatch_all_display _ _ _ _ (w_display win) _ Hpost_run
              (lookup_insert_eq _ _ _)) as (d1 & Hd1 & _ & _ & Hrun).
  specialize (Hrun eq_refl).
  apply dispatch_all_trace in Hpost_run as (new2 & Ht2 & Hall2).
  unfold_world.
  (* the test after the round trip *)
  unbind H. unfold_world. simplify_eq.
  rewrite Hnull in H. cbn [is_null] in H.
  apply bind_Ok in H as ([] & s2 & Hdestroy & H). step H.
  assert (Hfreed : ∃ s1 fb1, fbs s1 !! f = Some fb1 ∧ fb_buffer fb1 = None ∧
                             fb_destroy f s1 = Ok (tt, s2)) by eauto.
  unfold fb_destroy in Hdestroy. unbind Hdestroy. unfold_world. simplify_eq.
  rewrite Hnull in Hdestroy. unbind Hdestroy. step Hdestroy. unfold_world.
  split; [reflexivity|]. split; [apply lookup_delete_eq|].
  rewrite Ht2, Ht1. split; [|split; [|split; [|exact Hfreed]]].
  - rewrite !elem_of_app, !elem_of_cons. right. right. left. reflexivity.
  - intros b. repeat first [rewrite elem_of_app | rewrite elem_of_cons].
    intros [Hin|[Hin|[Hin|[Hin|[Hin|[Hin|[Hin|[Hin|Hin]]]]]]]];
      try discriminate Hin; try assumption.
    + rewrite Forall_forall in Hall2.
      destruct (Hall2 _ Hin) as (e & _ & He).
      rewrite emitted_by_not_buffer_destroy in He. discriminate He.
    + rewrite Forall_forall in Hall1.
      destruct (Hall1 _ Hin) as (e & _ & He).
      rewrite emitted_by_not_buffer_destroy in He. discriminate He.
  - unfold display_is_running, bind, load_display. unfold_world.
    rewrite Hd1, Hrun. reflexivity.
Qed.

Lemma C1_import_failure_witness :
  (None : option addr) = None ∧
  fbs scenario_d_result !! 30%nat = None ∧
  zwp_linux_buffer_params_v1_destroy 11%nat ∈ trace scenario_d_result ∧
  (∀ b, wl_buffer_destroy b ∈ trace scenario_d_result →
        wl_buffer_destroy b ∈ trace scenario_d) ∧
  display_is_running 10%nat scenario_d_result = Ok (0, scenario_d_result) ∧
  ∃ s1 fb1, fbs s1 !! 30%nat = Some fb1 ∧ fb_buffer fb1 = None ∧
            fb_destroy 30%nat s1 = Ok (tt, scenario_d_result).
Proof.
  apply (C1_import_failure scenario_d 20%nat
           (example_window (Some 10%nat) None 0 0 false false)
           example_display 0 5 0 842094158 1920 1080 1920 30%nat
           [xdg_toplevel_configure 20%nat 1280 720;
            xdg_surface_configure 20%nat 77] [] None scenario_d_result).
  - reflexivity.
  - reflexivity.
  - constructor.
  - vm_compute. reflexivity.
Defined.

(** ** Destinations and surface configure events *)

Lemma emitted_by_set_destination e viewport width height :
  emitted_by e (wp_viewport_set_destination viewport width height) = true →
  is_surface_configure e = true.
Proof. destruct e; simpl; congruence. Qed.

Lemma destinations_app l1 l2 :
  destinations (l1 ++ l2) = destinations l1 ++ destinations l2.
Proof.
  induction l1 as [|r l1 IH]; [reflexivity|].
  destruct r; simpl; rewrite IH; reflexivity.
Qed.

Lemma destinations_nil_of_quiet events new :
  Forall (λ e, is_surface_configure e = false) events →
  Forall (λ r, ∃ e, e ∈ events ∧ emitted_by e r = true) new →
  destinations new = [].
Proof.
  intros Hquiet. induction 1 as [|r new (e & Hin & Hr) _ IH]; [reflexivity|].
  destruct r; simpl; try exact IH.
  apply emitted_by_set_destination in Hr.
  rewrite Forall_forall in Hquiet. rewrite (Hquiet _ Hin) in Hr.
  discriminate Hr.
Qed.

(** ** Showing before the first configure *)

Lemma int_div_pos a b : 0 < b → int_div a b = Ok (a ÷ b).
Proof.
  intros Hb. unfold int_div.
  destruct (Z.eqb_spec b 0); [lia|].
  destruct (Z.eqb_spec b (-1)); [lia|].
  rewrite andb_false_r. reflexivity.
Qed.

(** On a window that has the size of its framebuffer, [window_recenter]
    always answers: the divisor is a positive window dimension. *)
Lemma window_recenter_adopted s w win f fb :
  windows s !! w = Some win →
  w_buffer win = Some f →
  fbs s !! f = Some fb →
  w_width win = fb_width fb → w_height win = fb_height fb →
  ∃ r new,
    window_recenter w s =
      Ok (r, {| displays := displays s; windows := windows s; fbs := fbs s;
                next_id := next_id s; trace := new ++ trace s |}).
Proof.
  destruct s as [ds ws fs n tr]. unfold_world.
  intros Hw Hb Hf HW HH. unfold window_recenter, bind, load_window.
  unfold_world. rewrite Hw, Hb.
  destruct (w_viewport win) as [vp|]; [|by exists 0, []].
  destruct (Z.leb_spec (w_width win) 0); [by exists 0, []|].
  destruct (Z.leb_spec (w_height win) 0); [by exists 0, []|].
  simpl. unfold load_fb. unfold_world. rewrite Hf.
  destruct (fb_width fb >? fb_height fb); unfold lift;
    rewrite int_div_pos by lia; by eexists 1, [_].
Qed.

Lemma window_show_buffer_unconfigured s w win f fb release_cb cb_data events :
  windows s !! w = Some win →
  fbs s !! f = Some fb →
  w_size_set win = false →
  w_configured win = false →
  window_show_buffer w f release_cb cb_data events s =
    (let* d := load_display (w_display win) in roundtrip (d_display d) events)
      (shown_world w f win fb release_cb cb_data s).
Proof.
  intros Hw Hf Hsz Hcfg. unfold window_show_buffer.
  fwd. fwd. fwd. cbn zeta. fwd.
  cbn [w_size_set w_configured w_display with_w_buffer].
  rewrite Hsz, Hcfg. fwd. fwd.
  rewrite insert_insert_eq. reflexivity.
Qed.

(** Whatever its [configured] flag, the window has the framebuffer and its
    size when the round trip of [window_show_buffer] starts. *)
Lemma window_show_buffer_adopts s w win f fb release_cb cb_data events s' :
  windows s !! w = Some win →
  fbs s !! f = Some fb →
  w_size_set win = false →
  window_show_buffer w f release_cb cb_data events s = Ok (tt, s') →
  ∃ s1, dispatch_all events s1 = Ok (tt, s') ∧
        windows s1 !! w =
          Some (with_w_size (fb_width fb) (fb_height fb)
                  (with_w_buffer (Some f) win)).
Proof.
  intros Hw Hf Hsz H. unfold window_show_buffer in H.
  do 4 unbind H. unfold_world. simplify_eq.
  cbn [w_size_set w_configured with_w_buffer] in H. rewrite Hsz in H.
  unbind H.
  apply bind_Ok in H as ([] & s2 & Hcfg & H).
  unbind H. unfold roundtrip in H. unbind H. unfold_world.
  eexists. split; [exact H|]. unfold_world.
  destruct (w_configured win).
  - apply bind_Ok in Hcfg as (r & s1 & Hrec & Hcommit).
    apply window_recenter_effect in Hrec
      as [[_ ->]|(_ & vp & vw & vh & (_ & Hw1 & _) & _)];
      apply window_commit_effect in Hcommit
        as (? & ? & ? & ? & ? & (_ & Hw2 & _));
      rewrite Hw2, ?Hw1; unfold_world;
      rewrite insert_insert_eq; apply lookup_insert_eq.
  - step Hcfg. unfold_world.
    rewrite insert_insert_eq. apply lookup_insert_eq.
Qed.

Lemma window_show_buffer_returns s w win f fb d release_cb cb_data :
  windows s !! w = Some win →
  fbs s !! f = Some fb →
  displays s !! w_display win = Some d →
  w_size_set win = false →
  ∃ s', window_show_buffer w f release_cb cb_data [] s = Ok (tt, s').
Proof.
  intros Hw Hf Hd Hsz. destruct (w_configured win) eqn:Hcfg.
  - unfold window_show_buffer.
    fwd. fwd. fwd. cbn zeta. fwd.
    cbn [w_size_set w_configured w_display with_w_buffer].
    rewrite Hsz, Hcfg. fwd. rewrite insert_insert_eq.
    set (win1 := with_w_size _ _ _). set (fb1 := with_fb_release _ _ _).
    set (s1 := set_windows _ _).
    assert (Hw1 : windows s1 !! w = Some win1) by apply lookup_insert_eq.
    assert (Hf1 : fbs s1 !! f = Some fb1) by apply lookup_insert_eq.
    destruct (window_recenter_adopted s1 w win1 f fb1 Hw1 eq_refl Hf1
                eq_refl eq_refl) as (r & new & Hrec).
    erewrite bind_step.
    2: { erewrite bind_step by exact Hrec.
         apply (window_commit_run _ w win1 d (fb_buffer fb)).
         - exact Hw1.
         - exact Hd.
         - cbn. exists fb1. split; [exact Hf1 | reflexivity]. }
    fwd. unfold roundtrip. fwd. cbn [dispatch_all]. eexists. reflexivity.
  - rewrite (window_show_buffer_unconfigured s w win f fb) by assumption.
    fwd. unfold roundtrip. fwd. cbn [dispatch_all]. eexists. reflexivity.
Qed.

Lemma dispatch_surface_configure s w win xs serial :
  windows s !! w = Some win →
  w_xdg_surface win = Some xs →
  dispatch (xdg_surface_configure w serial) s =
    xdg_surface_handle_configure w serial s.
Proof. intros Hw Hxs. cbn [dispatch]. rewrite Hw, Hxs. reflexivity. Qed.

(** The surface configure acknowledgment arrives during the round trip of
    the show: the window becomes configured and the destination is set, to
    the framebuffer's own size since that is the window's size. *)
Lemma window_show_buffer_then_configure s w win f fb d release_cb cb_data
  serial viewport :
  windows s !! w = Some win →
  fbs s !! f = Some fb →
  displays s !! w_display win = Some d →
  w_size_set win = false →
  w_configured win = false →
  w_viewport win = Some viewport →
  is_Some (w_xdg_surface win) →
  0 < fb_width fb → 0 < fb_height fb →
  fb_width fb * fb_height fb ≤ INT_MAX →
  ∃ s' win',
    window_show_buffer w f release_cb cb_data
      [xdg_surface_configure w serial] s = Ok (tt, s') ∧
    destinations (trace s') =
      (viewport, fb_width fb, fb_height fb) :: destinations (trace s) ∧
    windows s' !! w = Some win' ∧ w_configured win' = true.
Proof.
  intros Hw Hf Hd Hsz Hcfg Hvp [xs Hxs] Hbw Hbh Hmax.
  rewrite (window_show_buffer_unconfigured s w win f fb) by assumption.
  unfold shown_world.
  set (win1 := with_w_size _ _ _). set (fb1 := with_fb_release _ _ _).
  fwd. unfold roundtrip. fwd. cbn [dispatch_all].
  set (s0 := {| displays := _; windows := _; fbs := _; next_id := _;
                trace := _ |}).
  assert (Hw0 : windows s0 !! w = Some win1) by apply lookup_insert_eq.
  set (win2 := with_w_configured true win1).
  assert (∃ s3, xdg_surface_handle_configure w serial s0 = Ok (tt, s3) ∧
                destinations (trace s3) =
                  (viewport, fb_width fb, fb_height fb)
                  :: destinations (trace s) ∧
                windows s3 !! w = Some win2) as (s3 & Hrun & Hdest & Hw3).
  { unfold xdg_surface_handle_configure. fwd. fwd. fwd.
    unfold set_windows. subst s0. unfold_world. rewrite insert_insert_eq.
    set (s2 := {| displays := _; windows := _; fbs := _; next_id := _;
                  trace := _ |}).
    assert (Hw2 : windows s2 !! w = Some win2) by apply lookup_insert_eq.
    assert (Hf2 : fbs s2 !! f = Some fb1) by apply lookup_insert_eq.
    assert (Hrec : window_recenter w s2 =
                   Ok (1, request_made
                            (wp_viewport_set_destination viewport
                               (fb_width fb) (fb_height fb)) s2)).
    { rewrite (window_recenter_scaled s2 w win2 f fb1 viewport);
        try assumption; try reflexivity.
      - subst win2 win1 fb1.
        cbn [w_width w_height fb_width fb_height with_w_configured with_w_size
             with_w_buffer with_fb_release].
        unfold scaled_destination.
        destruct (fb_width fb >? fb_height fb); cbn [fst snd].
        + rewrite (Z.mul_comm (fb_width fb)), Z.div_mul by lia. reflexivity.
        + rewrite (Z.mul_comm (fb_height fb)), Z.div_mul by lia. reflexivity.
      - subst win2 win1 fb1.
        cbn [w_width w_height fb_width fb_height with_w_configured with_w_size
             with_w_buffer with_fb_release].
        unfold scaling_product.
        destruct (fb_width fb >? fb_height fb); lia. }
    erewrite bind_step by exact Hrec. cbn [Z.eqb].
    erewrite bind_step.
    2: { apply (window_commit_run _ w win2 d (fb_buffer fb)).
         - exact Hw2.
         - exact Hd.
         - cbn. exists fb1. split; [exact Hf2 | reflexivity]. }
    fwd. eexists. split; [reflexivity|]. unfold_world.
    split; [reflexivity | exact Hw2]. }
  erewrite bind_step.
  2: { rewrite (dispatch_surface_configure s0 w win1 xs) by assumption.
       exact Hrun. }
  exists s3, win2. repeat split; assumption.
Qed.

(** C6.  [window_show_buffer] on a window whose [size_set] was never set
    (with its display and the framebuffer in place): the call returns when no
    event is pending; whatever events its round trip delivers, short of a
    toplevel configure of that window, the window ends with the framebuffer
    as its buffer and the framebuffer's width and height as its size.  If
    the window is not configured, the call sets no destination unless its
    round trip delivers a surface configure; the window stays unconfigured
    unless that event is its own; and when its surface configure does arrive,
    the window becomes configured and the destination is set then. *)
Theorem C6_show_before_configure s w win f fb d release_cb cb_data :
  windows s !! w = Some win →
  fbs s !! f = Some fb →
  displays s !! w_display win = Some d →
  w_size_set win = false →
  (∃ s', window_show_buffer w f release_cb cb_data [] s = Ok (tt, s')) ∧
  (∀ events s',
     window_show_buffer w f release_cb cb_data events s = Ok (tt, s') →
     Forall (λ e, ∀ width height, e ≠ xdg_toplevel_configure w width height)
       events →
     ∃ win', windows s' !! w = Some win' ∧ w_buffer win' = Some f ∧
             w_width win' = fb_width fb ∧ w_height win' = fb_height fb) ∧
  (w_configured win = false →
   (∀ events s',
      window_show_buffer w f release_cb cb_data events s = Ok (tt, s') →
      Forall (λ e, is_surface_configure e = false) events →
      destinations (trace s') = destinations (trace s)) ∧
   (∀ events s',
      window_show_buffer w f release_cb cb_data events s = Ok (tt, s') →
      Forall (λ e, ∀ serial, e ≠ xdg_surface_configure w serial) events →
      ∃ win', windows s' !! w = Some win' ∧ w_configured win' = false) ∧
   (∀ serial viewport,
      w_viewport win = Some viewport →
      is_Some (w_xdg_surface win) →
      0 < fb_width fb → 0 < fb_height fb →
      fb_width fb * fb_height fb ≤ INT_MAX →
      ∃ s' win',
        window_show_buffer w f release_cb cb_data
          [xdg_surface_configure w serial] s = Ok (tt, s') ∧
        destinations (trace s') =
          (viewport, fb_width fb, fb_height fb) :: destinations (trace s) ∧
        windows s' !! w = Some win' ∧ w_configured win' = true)).
Proof.
  intros Hw Hf Hd Hsz. split; [|split].
  - eapply window_show_buffer_returns; eassumption.
  - intros events s' Hrun Hquiet.
    destruct (window_show_buffer_adopts _ _ _ _ _ _ _ _ _ Hw Hf Hsz Hrun)
      as (s1 & Hevents & Hw1).
    destruct (dispatch_all_window _ _ _ _ _ _ Hevents Hw1)
      as (win' & Hw' & _ & _ & _ & _ & _ & Hbuf & _ & Hsize).
    destruct (Hsize Hquiet) as (HW & HH & _).
    exists win'. repeat split; assumption.
  - intros Hcfg. split; [|split].
    + intros events s' Hrun Hquiet.
      rewrite (window_show_buffer_unconfigured s w win f fb) in Hrun
        by assumption.
      unbind Hrun. unfold roundtrip in Hrun. unbind Hrun.
      apply dispatch_all_trace in Hrun as (new & Ht & Hnew).
      rewrite Ht, destinations_app.
      rewrite (destinations_nil_of_quiet events new) by assumption.
      reflexivity.
    + intros events s' Hrun Hquiet.
      rewrite (window_show_buffer_unconfigured s w win f fb) in Hrun
        by assumption.
      unbind Hrun. unfold roundtrip in Hrun. unbind Hrun.
      destruct (dispatch_all_window _ _ _ _ w _ Hrun (lookup_insert_eq _ _ _))
        as (win' & Hw' & _ & _ & _ & _ & _ & _ & Hconf & _).
      exists win'. split; [exact Hw'|]. rewrite (Hconf Hquiet). exact Hcfg.
    + intros serial viewport Hvp Hxs Hbw Hbh Hmax.
      eapply window_show_buffer_then_configure; eassumption.
Qed.

Lemma C6_show_before_configure_witness :
  (∃ s', window_show_buffer 20%nat 30%nat (Some 1%nat) 42 []
           (example_world
              (example_window (Some 10%nat) None 0 0 false false)
              (example_fb 640 480)) = Ok (tt, s')) ∧
  (∃ s' win',
     window_show_buffer 20%nat 30%nat (Some 1%nat) 42
       [xdg_surface_configure 20%nat 77]
       (example_world
          (example_window (Some 10%nat) None 0 0 false false)
          (example_fb 640 480)) = Ok (tt, s') ∧
     destinations (trace s') = (10%nat, 640, 480) :: [] ∧
     windows s' !! 20%nat = Some win' ∧ w_configured win' = true).
Proof.
  destruct (C6_show_before_configure
              (example_world
                 (example_window (Some 10%nat) None 0 0 false false)
                 (example_fb 640 480))
              20%nat (example_window (Some 10%nat) None 0 0 false false)
              30%nat (example_fb 640 480) example_display (Some 1%nat) 42
              eq_refl eq_refl eq_refl eq_refl) as (Hret & _ & Hunconf).
  split; [exact Hret|].
  destruct (Hunconf eq_refl) as (_ & _ & Hthen).
  apply (Hthen 77 10%nat);
    [reflexivity | by eexists | reflexivity | reflexivity
    | vm_compute; congruence].
Defined.

(** ** Capability discovery *)

Ltac string_tests :=
  repeat match goal with
         | H : (_ =? _)%string = true |- _ =>
             apply String.eqb_eq in H; subst
         | H : (?a =? ?b)%string = false |- context [(?a =? ?b)%string] =>
             rewrite H
         end.

(** A display that listens to its registry gains the shell (resp. the
    buffer-import global) by an event exactly when the event advertises it. *)
Lemma dispatch_capabilities e s u s' d dd :
  dispatch e s = Ok (u, s') →
  displays s !! d = Some dd →
  is_null (d_registry dd) = false →
  ∃ dd', displays s' !! d = Some dd' ∧
         d_registry dd' = d_registry dd ∧
         is_null (d_xdg_shell dd') =
           is_null (d_xdg_shell dd) && negb (advertised_by d "zxdg_shell_v6" e) ∧
         is_null (d_dmabuf dd') =
           is_null (d_dmabuf dd)
           && negb (advertised_by d "zwp_linux_dmabuf_v1" e).
Proof.
  intros H Hd Hreg. destruct e; cbn [dispatch] in H; handlers; mrun;
    try surface_configure_effect;
    repeat match goal with
           | H : displays _ = _ |- _ => rewrite H
           end;
    lookups;
    (eexists; split; [first [eassumption | reflexivity]|]);
    cbn [advertised_by d_registry d_xdg_shell d_dmabuf with_d_compositor
         with_d_viewporter with_d_xdg_shell with_d_dmabuf with_d_formats
         with_d_running is_null];
    string_tests;
    repeat case_bool_decide; try congruence;
    cbn [String.eqb Ascii.eqb Bool.eqb andb negb];
    rewrite ?andb_true_r, ?andb_false_r; auto.
Qed.

Lemma dispatch_all_capabilities events s u s' d dd :
  dispatch_all events s = Ok (u, s') →
  displays s !! d = Some dd →
  is_null (d_registry dd) = false →
  ∃ dd', displays s' !! d = Some dd' ∧
         d_registry dd' = d_registry dd ∧
         is_null (d_xdg_shell dd') =
           is_null (d_xdg_shell dd)
           && negb (advertises d "zxdg_shell_v6" events) ∧
         is_null (d_dmabuf dd') =
           is_null (d_dmabuf dd)
           && negb (advertises d "zwp_linux_dmabuf_v1" events).
Proof.
  revert s dd. induction events as [|e events IH]; intros s dd H Hd Hreg;
    simpl in H.
  - apply ret_Ok in H as [_ ->]. exists dd.
    cbn. rewrite !andb_true_r. auto.
  - apply bind_Ok in H as ([] & s1 & He & H).
    destruct (dispatch_capabilities _ _ _ _ _ _ He Hd Hreg)
      as (d1 & Hd1 & Hr1 & Hs1 & Hb1).
    rewrite <- Hr1 in Hreg.
    destruct (IH _ _ H Hd1 Hreg) as (d2 & Hd2 & Hr2 & Hs2 & Hb2).
    exists d2. split; [exact Hd2|]. split; [congruence|].
    unfold advertises in *. cbn [existsb].
    rewrite Hs2, Hs1, Hb2, Hb1, !negb_orb, !andb_assoc. auto.
Qed.

(** The registry handler cannot fault. *)
Lemma dispatch_registry_global_returns d id interface version s :
  ∃ s', dispatch (registry_global d id interface version) s = Ok (tt, s').
Proof.
  cbn [dispatch]. destruct (displays s !! d) as [dd|] eqn:Hd; [|eauto].
  destruct (is_null (d_registry dd)); [eauto|].
  unfold registry_handle_global. fwd.
  repeat match goal with
         | |- context [if ?c then _ else _] => destruct c
         end;
    repeat fwd; eexists; reflexivity.
Qed.

Lemma dispatch_all_discovery_returns events s :
  Forall (λ e, is_registry_global e = true) events →
  ∃ s', dispatch_all events s = Ok (tt, s').
Proof.
  intros Hall. revert s. induction Hall as [|e events He _ IH]; intros s.
  - eexists. reflexivity.
  - destruct e; try discriminate He.
    destruct (dispatch_registry_global_returns d id interface version s)
      as (s1 & H1).
    destruct (IH s1) as (s' & H').
    exists s'. cbn [dispatch_all]. erewrite bind_step by exact H1. exact H'.
Qed.

Lemma display_destroy_returns display d s :
  displays s !! display = Some d →
  ∃ s', display_destroy display s = Ok (tt, s').
Proof.
  intros Hd. unfold display_destroy. fwd.
  destruct (d_viewporter d), (d_compositor d), (d_xdg_shell d), (d_dmabuf d),
    (d_registry d), (d_display d); repeat fwd; eexists; reflexivity.
Qed.

Lemma display_destroy_result display s u s' :
  display_destroy display s = Ok (u, s') → displays s' !! display = None.
Proof.
  unfold display_destroy. intros H. mrun; apply lookup_delete_eq.
Qed.

(** ** Creating the session *)

(** C2 (as amended).  [display_create] returns NULL if and only if the
    structure cannot be allocated, or connecting to the compositor fails, or
    the round trip advertises no windowing shell or no buffer-import global
    to it; when it returns the display, [running] is 1.  So a compositor
    that advertises no buffer-import global always gets NULL.  The call
    returns whenever the round trip delivers registry events only. *)
Theorem C2_session_create mem connected events s :
  (∀ r s',
     display_create mem connected events s = Ok (r, s') →
     match mem with
     | None => r = None
     | Some d =>
         (r = None ↔
          connected = false ∨
          advertises d "zxdg_shell_v6" events = false ∨
          advertises d "zwp_linux_dmabuf_v1" events = false) ∧
         (r ≠ None → r = Some d ∧ display_is_running d s' = Ok (1, s'))
     end) ∧
  (Forall (λ e, is_registry_global e = true) events →
   ∃ r s', display_create mem connected events s = Ok (r, s')).
Proof.
  split.
  - intros r s' H. destruct mem as [d|]; [|by apply ret_Ok in H as [-> _]].
    unfold display_create in H. unbind H.
    apply bind_Ok in H as (dpy & s0 & Hconn & H).
    destruct connected.
    + unbind Hconn. step Hconn. do 5 unbind H.
      apply bind_Ok in H as ([] & s1 & Hrt & H).
      unfold roundtrip in Hrt. unbind Hrt. unfold_world.
      destruct (dispatch_all_capabilities _ _ _ _ d _ Hrt
                  (lookup_insert_eq _ _ _) eq_refl)
        as (dd & Hdd & _ & Hshell & Hdmabuf).
      cbn in Hshell, Hdmabuf.
      unbind H. simplify_eq. rewrite Hshell, Hdmabuf in H.
      destruct (advertises d "zxdg_shell_v6" events);
        destruct (advertises d "zwp_linux_dmabuf_v1" events);
        cbn [negb orb] in H; mrun;
        try (split; [split; [auto | intros _; reflexivity]
                    | intros Hne; congruence]).
      split; [split; [discriminate | intros [?|[?|?]]; discriminate]|].
      intros _. split; [reflexivity|].
      unfold display_is_running, bind, load_display. unfold_world.
      rewrite lookup_insert_eq. reflexivity.
    + step Hconn. mrun.
      split; [split; [auto | reflexivity] | congruence].
  - intros Hall. destruct mem as [d|]; [|eexists _, _; reflexivity].
    unfold display_create. fwd.
    destruct connected.
    + do 6 fwd. unfold set_displays. unfold_world.
      set (s0 := {| displays := _; windows := _; fbs := _; next_id := _;
                    trace := _ |}).
      destruct (dispatch_all_discovery_returns events
                  (request_made (wl_display_roundtrip (Some (next_id s))) s0)
                  Hall) as (s1 & Hevents).
      destruct (dispatch_all_display _ _ _ _ d _ Hevents
                  (lookup_insert_eq _ _ _)) as (dd & Hdd & _).
      erewrite bind_step.
      2: { unfold roundtrip. fwd. exact Hevents. }
      fwd.
      destruct (is_null (d_xdg_shell dd) || is_null (d_dmabuf dd)).
      * fwd.
        destruct (display_destroy_returns d dd
                    (request_made (err "missing wayland globals") s1) Hdd)
          as (s2 & Hdestroy).
        erewrite bind_step by exact Hdestroy. eexists _, _. reflexivity.
      * fwd. eexists _, _. reflexivity.
    + do 4 fwd. unfold set_displays. unfold_world.
      set (s0 := {| displays := _; windows := _; fbs := _; next_id := _;
                    trace := _ |}).
      destruct (display_destroy_returns d (with_d_display None calloc_display)
                  s0 (lookup_insert_eq _ _ _)) as (s2 & Hdestroy).
      erewrite bind_step by exact Hdestroy. eexists _, _. reflexivity.
Qed.

(** Scenario A: the compositor advertises no buffer-import global. *)
Lemma C2_session_create_witness :
  ∃ s', display_create (Some 10%nat) true discovery_events_no_dmabuf
          empty_world = Ok (None, s').
Proof.
  destruct (C2_session_create (Some 10%nat) true discovery_events_no_dmabuf
              empty_world) as [Hiff Hreturns].
  destruct (Hreturns ltac:(repeat constructor)) as (r & s' & Hrun).
  destruct (Hiff r s' Hrun) as [[_ Hnone] _].
  exists s'. rewrite Hrun, Hnone; [reflexivity|].
  right. right. reflexivity.
Defined.

(** C2, as stated, fails: when the structure cannot be allocated,
    [display_create] returns NULL although the compositor can be reached and
    advertises both the windowing shell and the buffer-import global. *)
Lemma C2_counterexample :
  display_create None true discovery_events empty_world
    = Ok (None, empty_world) ∧
  advertises 10%nat "zxdg_shell_v6" discovery_events = true ∧
  advertises 10%nat "zwp_linux_dmabuf_v1" discovery_events = true.
Proof. repeat split. Qed.

(** * Further properties *)

(** ** Recording formats, then asking for one *)

(** Advertisements that fit in the table are appended to the recorded
    formats, and change nothing else. *)
Lemma dispatch_all_advertise_formats formats s d dd :
  displays s !! d = Some dd →
  is_null (d_dmabuf dd) = false →
  length (d_drm_formats dd) = DRM_FORMATS_LEN →
  0 ≤ d_drm_format_count dd →
  (Z.to_nat (d_drm_format_count dd) + length formats ≤ 32)%nat →
  ∃ s' dd',
    dispatch_all (advertise_formats d formats) s = Ok (tt, s') ∧
    displays s' !! d = Some dd' ∧
    d_drm_format_count dd' =
      d_drm_format_count dd + Z.of_nat (length formats) ∧
    length (d_drm_formats dd') = DRM_FORMATS_LEN ∧
    take (Z.to_nat (d_drm_format_count dd')) (d_drm_formats dd') =
      take (Z.to_nat (d_drm_format_count dd)) (d_drm_formats dd) ++ formats ∧
    windows s' = windows s ∧ fbs s' = fbs s ∧ trace s' = trace s.
Proof.
  revert s dd. induction formats as [|x formats IH];
    intros s dd Hd Hbound Hlen Hn Hfit.
  - exists s, dd. cbn [advertise_formats map dispatch_all length].
    rewrite Z.add_0_r, app_nil_r. repeat split; auto.
  - cbn [length] in Hfit.
    assert (Hrun : dispatch (dmabuf_format_event d x) s =
              Ok (tt, set_displays
                        (<[d := with_d_formats
                                  (<[Z.to_nat (d_drm_format_count dd) := x]>
                                     (d_drm_formats dd))
                                  (d_drm_format_count dd + 1) dd]>
                           (displays s)) s)).
    { cbn [dispatch]. rewrite Hd, Hbound.
      apply dmabuf_format_in_bounds; [assumption | assumption | lia]. }
    set (dd1 := with_d_formats _ _ dd) in Hrun.
    set (s1 := set_displays _ s) in Hrun.
    destruct (IH s1 dd1) as (s' & dd' & Hall & Hd' & Hcount & Hlen' & Htake
                             & Hw & Hf & Ht).
    + apply lookup_insert_eq.
    + exact Hbound.
    + subst dd1. cbn [d_drm_formats with_d_formats].
      rewrite length_insert. exact Hlen.
    + subst dd1. cbn [d_drm_format_count with_d_formats]. lia.
    + subst dd1. cbn [d_drm_format_count with_d_formats]. lia.
    + exists s', dd'. cbn [advertise_formats map dispatch_all].
      erewrite bind_step by exact Hrun.
      split; [exact Hall|]. split; [exact Hd'|].
      subst dd1. cbn [d_drm_format_count d_drm_formats with_d_formats] in *.
      split; [cbn [length]; lia|]. split; [exact Hlen'|].
      split; [|auto].
      rewrite Htake.
      replace (Z.to_nat (d_drm_format_count dd + 1))
        with (S (Z.to_nat (d_drm_format_count dd))) by lia.
      rewrite (take_S_r _ _ x).
      * rewrite take_insert_ge by lia. rewrite <- app_assoc. reflexivity.
      * apply list_lookup_insert_eq. rewrite Hlen. unfold DRM_FORMATS_LEN. lia.
Qed.

(** X1.  After a display that has recorded nothing receives the
    advertisements of at most 32 formats, [format_is_supported] answers 1
    for exactly the advertised formats, 0 for all others (0 included, although
    the unused entries of the table hold 0). *)
Theorem formats_recorded_then_supported s d dd formats format :
  displays s !! d = Some dd →
  is_Some (d_dmabuf dd) →
  length (d_drm_formats dd) = DRM_FORMATS_LEN →
  d_drm_format_count dd = 0 →
  (length formats ≤ 32)%nat →
  ∃ s',
    dispatch_all (advertise_formats d formats) s = Ok (tt, s') ∧
    format_is_supported d format s' =
      Ok (if bool_decide (format ∈ formats) then 1 else 0, s').
Proof.
  intros Hd [p Hp] Hlen Hn Hfit.
  destruct (dispatch_all_advertise_formats formats s d dd)
    as (s' & dd' & Hall & Hd' & Hcount & Hlen' & Htake & _);
    try assumption; try (rewrite Hn; lia).
  { rewrite Hp. reflexivity. }
  exists s'. split; [exact Hall|].
  rewrite (format_is_supported_spec s' d dd').
  - rewrite Htake, Hn. reflexivity.
  - exact Hd'.
  - rewrite Hcount, Hlen', Hn. unfold DRM_FORMATS_LEN. lia.
Qed.

Lemma formats_recorded_then_supported_witness :
  ∃ s',
    dispatch_all (advertise_formats 10%nat [842094158; 875713112])
      (example_world_no_fb
         (example_window (Some 10%nat) None 0 0 false false)) = Ok (tt, s') ∧
    format_is_supported 10%nat 0 s' =
      Ok (if bool_decide (0 ∈ [842094158; 875713112]) then 1 else 0, s').
Proof.
  apply (formats_recorded_then_supported
           (example_world_no_fb
              (example_window (Some 10%nat) None 0 0 false false))
           10%nat example_display [842094158; 875713112] 0).
  - reflexivity.
  - by eexists.
  - reflexivity.
  - reflexivity.
  - vm_compute. lia.
Defined.

(** ** Show, then release *)

(** What [window_show_buffer] has done when its round trip starts. *)
Lemma window_show_buffer_round_trip s w win f fb release_cb cb_data events s' :
  windows s !! w = Some win →
  fbs s !! f = Some fb →
  window_show_buffer w f release_cb cb_data events s = Ok (tt, s') →
  ∃ s1 new,
    dispatch_all events s1 = Ok (tt, s') ∧
    windows s1 = <[w := shown_window f fb win]> (windows s) ∧
    fbs s1 = <[f := with_fb_release release_cb cb_data fb]> (fbs s) ∧
    displays s1 = displays s ∧
    trace s1 = new ++ trace s ∧
    Forall (λ r, made_by_show r = true) new.
Proof.
  intros Hw Hf H. unfold window_show_buffer in H.
  do 4 unbind H. unfold_world. simplify_eq.
  apply bind_Ok in H as ([] & sa & Hsize & H).
  apply bind_Ok in H as ([] & sb & Hcfg & H).
  unbind H. unfold roundtrip in H. unbind H. unfold_world.
  cbn [w_size_set w_configured with_w_buffer] in Hsize, Hcfg.
  assert (Hsa : windows sa = <[w := shown_window f fb win]> (windows s) ∧
                fbs sa = <[f := with_fb_release release_cb cb_data fb]> (fbs s) ∧
                displays sa = displays s ∧ trace sa = trace s).
  { unfold shown_window. destruct (w_size_set win); step Hsize; unfold_world.
    - auto.
    - rewrite insert_insert_eq. auto. }
  destruct Hsa as (Hwa & Hfa & Hda & Hta).
  assert (Hsb : ∃ new, windows sb = windows sa ∧ fbs sb = fbs sa ∧
                       displays sb = displays sa ∧
                       trace sb = new ++ trace sa ∧
                       Forall (λ r, made_by_show r = true) new).
  { destruct (w_configured win).
    - apply bind_Ok in Hcfg as (r & sr & Hrec & Hcommit).
      apply window_commit_effect in Hcommit
        as (? & ? & ? & ? & ? & (Hd2 & Hw2 & Hf2 & Ht2)).
      apply window_recenter_effect in Hrec
        as [[_ ->]|(_ & vp & vw & vh & (Hd1 & Hw1 & Hf1 & Ht1) & _)].
      + eexists. repeat split; try eassumption. repeat constructor.
      + eexists (_ ++ [_]). rewrite Hd2, Hw2, Hf2, Ht2, Ht1, <- app_assoc.
        repeat split; try assumption.
        apply Forall_app. split; repeat constructor.
    - step Hcfg. exists []. repeat split. constructor. }
  destruct Hsb as (new & Hwb & Hfb & Hdb & Htb & Hnew).
  eexists _, (_ :: new). split; [exact H|]. unfold_world.
  rewrite Hwb, Hfb, Hdb, Htb, Hwa, Hfa, Hda, Hta.
  repeat split. constructor; [reflexivity | exact Hnew].
Qed.

Lemma release_calls_app f l1 l2 :
  release_calls f (l1 ++ l2) = release_calls f l1 ++ release_calls f l2.
Proof.
  induction l1 as [|r l1 IH]; [reflexivity|].
  destruct r; simpl; try exact IH.
  case_bool_decide; simpl; rewrite IH; reflexivity.
Qed.

Lemma release_calls_made_by_show f new :
  Forall (λ r, made_by_show r = true) new → release_calls f new = [].
Proof.
  induction 1 as [|r new Hr _ IH]; [reflexivity|].
  destruct r; simpl; try exact IH; discriminate Hr.
Qed.

Lemma release_calls_surface_configure f w serial new :
  Forall (λ r, emitted_by (xdg_surface_configure w serial) r = true) new →
  release_calls f new = [].
Proof.
  induction 1 as [|r new Hr _ IH]; [reflexivity|].
  destruct r; simpl; try exact IH; discriminate Hr.
Qed.

(** One event: the callback and context of framebuffer [f] stay, and the
    callback is called exactly when the event is a release of [f]. *)
Lemma dispatch_release e s u s' f fb :
  dispatch e s = Ok (u, s') →
  fbs s !! f = Some fb →
  is_reply_for f e = false →
  ∃ fb', fbs s' !! f = Some fb' ∧
         fb_release_cb fb' = fb_release_cb fb ∧
         fb_cb_data fb' = fb_cb_data fb ∧
         fb_buffer fb' = fb_buffer fb ∧
         release_calls f (trace s') =
           (if is_release_of f e && negb (is_null (fb_buffer fb)) then
              match fb_release_cb fb with
              | Some cb => [(cb, fb_cb_data fb)]
              | None => []
              end
            else []) ++ release_calls f (trace s).
Proof.
  intros H Hf Hreply. destruct e; cbn [dispatch] in H; handlers; mrun;
    try surface_configure_effect;
    cbn [is_reply_for is_release_of] in *;
    repeat case_bool_decide; simplify_eq;
    repeat match goal with
           | H : fbs _ = _ |- _ => rewrite H
           | H : trace _ = _ |- _ => rewrite H
           end;
    lookups;
    (eexists; split; [first [eassumption | reflexivity]|]);
    rewrite ?release_calls_app;
    try erewrite release_calls_surface_configure by eassumption;
    cbn [release_calls andb negb is_null app];
    repeat case_bool_decide; simplify_eq;
    repeat match goal with
           | H : ?x = _ |- context [?x] => rewrite H
           end;
    cbn [release_calls andb negb is_null app];
    auto.
Qed.

Lemma dispatch_all_release events s u s' f fb :
  dispatch_all events s = Ok (u, s') →
  fbs s !! f = Some fb →
  Forall (λ e, is_reply_for f e = false) events →
  ∃ fb', fbs s' !! f = Some fb' ∧
         fb_release_cb fb' = fb_release_cb fb ∧
         fb_cb_data fb' = fb_cb_data fb ∧
         fb_buffer fb' = fb_buffer fb ∧
         release_calls f (trace s') =
           (if is_null (fb_buffer fb) then []
            else match fb_release_cb fb with
                 | Some cb =>
                     replicate (releases_of f events) (cb, fb_cb_data fb)
                 | None => []
                 end) ++ release_calls f (trace s).
Proof.
  revert s fb. induction events as [|e events IH]; intros s fb H Hf Hall;
    simpl in H.
  - apply ret_Ok in H as [_ ->]. exists fb.
    split; [exact Hf|]. do 3 (split; [reflexivity|]).
    destruct (is_null (fb_buffer fb)), (fb_release_cb fb); reflexivity.
  - apply bind_Ok in H as ([] & s1 & He & H).
    apply Forall_cons in Hall as [Hhd Htl].
    destruct (dispatch_release _ _ _ _ _ _ He Hf Hhd)
      as (fb1 & Hf1 & Hcb1 & Hdata1 & Hbuf1 & Hcalls1).
    destruct (IH _ _ H Hf1 Htl) as (fb' & Hf' & Hcb' & Hdata' & Hbuf' & Hcalls').
    exists fb'. split; [exact Hf'|].
    do 3 (split; [congruence|]).
    rewrite Hcalls', Hcalls1, Hbuf1, Hcb1, Hdata1.
    unfold releases_of. cbn [List.filter].
    destruct (is_null (fb_buffer fb)), (fb_release_cb fb) as [cb|],
      (is_release_of f e); cbn [andb negb length app]; try reflexivity.
    rewrite replicate_S_end, <- app_assoc. reflexivity.
Qed.

(** X2.  A framebuffer with a bound buffer is shown with a release
    callback: every release of it that the round trip of the show delivers
    calls that callback once, with the context given to this show; with a
    NULL callback nothing is called.  No other call for this framebuffer is
    made. *)
Theorem show_then_release s w win f fb release_cb cb_data events s' :
  windows s !! w = Some win →
  fbs s !! f = Some fb →
  is_Some (fb_buffer fb) →
  Forall (λ e, is_reply_for f e = false) events →
  window_show_buffer w f release_cb cb_data events s = Ok (tt, s') →
  release_calls f (trace s') =
    match release_cb with
    | Some cb => replicate (releases_of f events) (cb, cb_data)
    | None => []
    end ++ release_calls f (trace s).
Proof.
  intros Hw Hf [b Hb] Hall H.
  destruct (window_show_buffer_round_trip _ _ _ _ _ _ _ _ _ Hw Hf H)
    as (s1 & new & Hevents & _ & Hf1 & _ & Ht1 & Hnew).
  assert (Hf1' : fbs s1 !! f = Some (with_fb_release release_cb cb_data fb))
    by (rewrite Hf1; apply lookup_insert_eq).
  destruct (dispatch_all_release _ _ _ _ _ _ Hevents Hf1' Hall)
    as (fb' & _ & _ & _ & _ & Hcalls).
  rewrite Hcalls, Ht1, release_calls_app.
  rewrite (release_calls_made_by_show f new Hnew).
  cbn [fb_buffer fb_release_cb fb_cb_data with_fb_release app].
  rewrite Hb. reflexivity.
Qed.

Lemma show_then_release_witness :
  release_calls 30%nat
    (trace
       (match window_show_buffer 20%nat 30%nat (Some 1%nat) 42
                [buffer_release_event 30%nat] scenario_c with
        | Ok (_, s') => s'
        | Fault _ => scenario_c
        end)) =
  replicate (releases_of 30%nat [buffer_release_event 30%nat]) (1%nat, 42)
  ++ release_calls 30%nat (trace scenario_c).
Proof.
  apply (show_then_release scenario_c 20%nat
           (example_window (Some 10%nat) None 1280 720 true true)
           30%nat (example_fb 1920 1080) (Some 1%nat) 42
           [buffer_release_event 30%nat]).
  - reflexivity.
  - reflexivity.
  - by eexists.
  - repeat constructor.
  - vm_compute. reflexivity.
Defined.

(** ** The window's flags and size over time *)

Lemma dispatch_flags e s u s' w win :
  dispatch e s = Ok (u, s') →
  windows s !! w = Some win →
  ∃ win', windows s' !! w = Some win' ∧
          (w_configured win = true → w_configured win' = true) ∧
          (w_size_set win = true → w_size_set win' = true).
Proof.
  intros H Hw. destruct e; cbn [dispatch] in H; handlers; mrun;
    try surface_configure_effect;
    repeat match goal with
           | H : windows _ = _ |- _ => rewrite H
           end;
    lookups;
    solve [ eexists; split; [first [eassumption | reflexivity]
                            | simpl; auto ] ].
Qed.

(** X3.  Whatever events a round trip delivers, a window that is configured
    stays configured and a window whose size the compositor has set keeps
    [size_set]: no handler clears either flag. *)
Theorem window_flags_never_cleared events s u s' w win :
  dispatch_all events s = Ok (u, s') →
  windows s !! w = Some win →
  ∃ win', windows s' !! w = Some win' ∧
          (w_configured win = true → w_configured win' = true) ∧
          (w_size_set win = true → w_size_set win' = true).
Proof.
  revert s win. induction events as [|e events IH]; intros s win H Hw;
    simpl in H.
  - apply ret_Ok in H as [_ ->]. eauto.
  - apply bind_Ok in H as ([] & s1 & He & H).
    destruct (dispatch_flags _ _ _ _ _ _ He Hw) as (w1 & Hw1 & Hc1 & Hs1).
    destruct (IH _ _ H Hw1) as (w2 & Hw2 & Hc2 & Hs2).
    exists w2. auto.
Qed.

Lemma window_flags_never_cleared_witness :
  ∃ win',
    windows
      (match dispatch_all
               [xdg_toplevel_configure 20%nat 800 600;
                xdg_surface_configure 20%nat 78; xdg_toplevel_close 20%nat]
               scenario_c with
       | Ok (_, s') => s'
       | Fault _ => scenario_c
       end) !! 20%nat = Some win' ∧
    (true = true → w_configured win' = true) ∧
    (true = true → w_size_set win' = true).
Proof.
  apply (window_flags_never_cleared
           [xdg_toplevel_configure 20%nat 800 600;
            xdg_surface_configure 20%nat 78; xdg_toplevel_close 20%nat]
           scenario_c tt _ 20%nat
           (example_window (Some 10%nat) None 1280 720 true true)).
  - vm_compute. reflexivity.
  - reflexivity.
Defined.

(** X4.  A close event for a window's toplevel clears [running] of the
    window's display, and nothing a round trip delivers before or after it
    sets [running] again; the window is not torn down: it stays allocated
    with its surface and shell objects. *)
Theorem close_stops_the_session s w win d pre post s' :
  windows s !! w = Some win →
  is_Some (w_xdg_toplevel win) →
  displays s !! w_display win = Some d →
  dispatch_all (pre ++ xdg_toplevel_close w :: post) s = Ok (tt, s') →
  display_is_running (w_display win) s' = Ok (0, s') ∧
  ∃ win', windows s' !! w = Some win' ∧
          w_surface win' = w_surface win ∧
          w_xdg_surface win' = w_xdg_surface win ∧
          w_xdg_toplevel win' = w_xdg_toplevel win ∧
          w_viewport win' = w_viewport win.
Proof.
  intros Hw [tl Htl] Hd H.
  apply dispatch_all_app in H as (sa & Hpre & H).
  cbn [dispatch_all] in H. apply bind_Ok in H as ([] & sb & Hclose & Hpost).
  destruct (dispatch_all_window _ _ _ _ _ _ Hpre Hw)
    as (wa & Hwa & Hda & Hsa & Hva & Hxa & Hta & _).
  destruct (dispatch_all_display _ _ _ _ _ _ Hpre Hd) as (da & Hdda & _).
  destruct (dispatch_window _ _ _ _ _ _ Hclose Hwa)
    as (wb & Hwb & Hdb & Hsb & Hvb & Hxb & Htb & _).
  assert (Hrun : ∃ db, displays sb !! w_display win = Some db ∧
                       d_running db = 0).
  { cbn [dispatch] in Hclose. rewrite Hwa, Hta, Htl in Hclose.
    cbn [is_null] in Hclose. unfold xdg_toplevel_handle_close in Hclose.
    mrun. simplify_eq. rewrite Hda. rewrite lookup_insert_eq. eauto. }
  destruct Hrun as (db & Hddb & Hzero).
  destruct (dispatch_all_window _ _ _ _ _ _ Hpost Hwb)
    as (w' & Hw' & Hd' & Hs' & Hv' & Hx' & Ht' & _).
  destruct (dispatch_all_display _ _ _ _ _ _ Hpost Hddb)
    as (d' & Hdd' & _ & _ & Hstay).
  split.
  - unfold display_is_running, bind, load_display.
    rewrite Hdd', (Hstay Hzero). reflexivity.
  - exists w'. split; [exact Hw'|]. repeat split; congruence.
Qed.

Lemma close_stops_the_session_witness :
  display_is_running 10%nat
    (match dispatch_all
             ([xdg_toplevel_configure 20%nat 800 600]
              ++ xdg_toplevel_close 20%nat :: [xdg_surface_configure 20%nat 78])
             scenario_c with
     | Ok (_, s') => s'
     | Fault _ => scenario_c
     end) =
  Ok (0, match dispatch_all
                 ([xdg_toplevel_configure 20%nat 800 600]
                  ++ xdg_toplevel_close 20%nat
                     :: [xdg_surface_configure 20%nat 78])
                 scenario_c with
         | Ok (_, s') => s'
         | Fault _ => scenario_c
         end).
Proof.
  apply (close_stops_the_session scenario_c 20%nat
           (example_window (Some 10%nat) None 1280 720 true true)
           example_display
           [xdg_toplevel_configure 20%nat 800 600]
           [xdg_surface_configure 20%nat 78]).
  - reflexivity.
  - by eexists.
  - reflexivity.
  - vm_compute. reflexivity.
Defined.

(** X5.  Once the compositor has set the window's size ([size_set]),
    showing a framebuffer of any dimensions leaves the window's width and
    height as they are (short of a new toplevel configure in the round trip);
    the framebuffer becomes the window's buffer. *)
Theorem show_keeps_negotiated_size s w win f fb release_cb cb_data events s' :
  windows s !! w = Some win →
  fbs s !! f = Some fb →
  w_size_set win = true →
  Forall (λ e, ∀ width height, e ≠ xdg_toplevel_configure w width height)
    events →
  window_show_buffer w f release_cb cb_data events s = Ok (tt, s') →
  ∃ win', windows s' !! w = Some win' ∧
          w_width win' = w_width win ∧ w_height win' = w_height win ∧
          w_size_set win' = true ∧ w_buffer win' = Some f.
Proof.
  intros Hw Hf Hsz Hquiet H.
  destruct (window_show_buffer_round_trip _ _ _ _ _ _ _ _ _ Hw Hf H)
    as (s1 & new & Hevents & Hw1 & _).
  assert (Hw1' : windows s1 !! w = Some (with_w_buffer (Some f) win)).
  { rewrite Hw1. unfold shown_window. rewrite Hsz. apply lookup_insert_eq. }
  destruct (dispatch_all_window _ _ _ _ _ _ Hevents Hw1')
    as (win' & Hw' & _ & _ & _ & _ & _ & Hbuf & _ & Hsize).
  destruct (Hsize Hquiet) as (HW & HH & Hset).
  exists win'. split; [exact Hw'|]. cbn in HW, HH, Hset, Hbuf.
  repeat split; congruence.
Qed.

Lemma show_keeps_negotiated_size_witness :
  ∃ win',
    windows
      (match window_show_buffer 20%nat 30%nat None 0
               [xdg_surface_configure 20%nat 78] scenario_c with
       | Ok (_, s') => s'
       | Fault _ => scenario_c
       end) !! 20%nat = Some win' ∧
    w_width win' = 1280 ∧ w_height win' = 720 ∧
    w_size_set win' = true ∧ w_buffer win' = Some 30%nat.
Proof.
  apply (show_keeps_negotiated_size scenario_c 20%nat
           (example_window (Some 10%nat) None 1280 720 true true)
           30%nat (example_fb 1920 1080) None 0
           [xdg_surface_configure 20%nat 78]).
  - reflexivity.
  - reflexivity.
  - reflexivity.
  - repeat constructor; discriminate.
  - vm_compute. reflexivity.
Defined.

(** X6.  The toplevel configure handler is idempotent: the same event
    delivered twice leaves the world as the first delivery left it. *)
Theorem toplevel_configure_twice w width height s :
  (xdg_toplevel_handle_configure w width height;;;
   xdg_toplevel_handle_configure w width height) s =
  xdg_toplevel_handle_configure w width height s.
Proof.
  unfold xdg_toplevel_handle_configure, bind, load_window, store_window, ret.
  destruct (windows s !! w) as [win|] eqn:Hw; [|reflexivity].
  destruct ((width <=? 0) || (height <=? 0) || is_null (w_viewport win))
    eqn:Hskip.
  - rewrite Hw, Hskip. reflexivity.
  - destruct (negb (w_width win =? width) || negb (w_height win =? height))
      eqn:Hdiff.
    + unfold_world. rewrite lookup_insert_eq.
      cbn [w_viewport w_width w_height with_w_size with_w_size_set].
      rewrite Hskip, !Z.eqb_refl. reflexivity.
    + rewrite Hw, Hskip, Hdiff. reflexivity.
Qed.

(** ** Destroying a framebuffer that is still shown *)

Lemma bind_fault {A B} (m : M A) (k : A → M B) s e :
  m s = Fault e → bind m k s = Fault e.
Proof. unfold bind. intros ->. reflexivity. Qed.

Lemma fb_destroy_run s f fb :
  fbs s !! f = Some fb →
  fb_destroy f s =
    Ok (tt, {| displays := displays s; windows := windows s;
               fbs := delete f (fbs s); next_id := next_id s;
               trace := match fb_buffer fb with
                        | Some b => wl_buffer_destroy b :: trace s
                        | None => trace s
                        end |}).
Proof.
  intros Hf. unfold fb_destroy. fwd.
  destruct (fb_buffer fb); repeat fwd; reflexivity.
Qed.

(** X7.  [fb_destroy] frees the framebuffer but leaves [window->buffer]
    pointing at it.  If the window has a viewport and a positive size, the
    next surface configure of that window reads the freed framebuffer's
    dimensions in [window_recenter]. *)
Theorem configure_after_fb_destroy s w win f fb serial viewport :
  windows s !! w = Some win →
  w_buffer win = Some f →
  fbs s !! f = Some fb →
  is_Some (w_xdg_surface win) →
  w_viewport win = Some viewport →
  0 < w_width win → 0 < w_height win →
  (fb_destroy f;;; dispatch (xdg_surface_configure w serial)) s
    = Fault InvalidPointer.
Proof.
  intros Hw Hb Hf [xs Hxs] Hvp HW HH.
  erewrite bind_step by (apply fb_destroy_run; exact Hf).
  cbn [dispatch windows]. rewrite Hw, Hxs. cbn [is_null].
  unfold xdg_surface_handle_configure. fwd. fwd. fwd.
  apply bind_fault.
  unfold window_recenter. fwd.
  cbn [w_buffer w_viewport w_width w_height with_w_configured].
  rewrite Hb, Hvp.
  destruct (Z.leb_spec (w_width win) 0); [lia|].
  destruct (Z.leb_spec (w_height win) 0); [lia|].
  cbn [orb]. apply bind_fault.
  unfold load_fb. unfold_world. rewrite lookup_delete_eq. reflexivity.
Qed.

Lemma configure_after_fb_destroy_witness :
  (fb_destroy 30%nat;;; dispatch (xdg_surface_configure 20%nat 78))
    (example_world
       (example_window (Some 10%nat) (Some 30%nat) 1280 720 true true)
       (example_fb 1920 1080))
  = Fault InvalidPointer.
Proof.
  apply (configure_after_fb_destroy
           (example_world
              (example_window (Some 10%nat) (Some 30%nat) 1280 720 true true)
              (example_fb 1920 1080))
           20%nat
           (example_window (Some 10%nat) (Some 30%nat) 1280 720 true true)
           30%nat (example_fb 1920 1080) 78 10%nat);
    first [reflexivity | by eexists].
Defined.

(** ** The surface configure handler *)

(** X8.  A surface configure is acknowledged with its own serial before any
    other request, the window becomes configured, and the handler ends with
    a flush.  In between it either does nothing, or sets one destination
    and then commits the surface; it does nothing when the window shows no
    framebuffer, has no viewport, or has a non-positive size. *)
Theorem surface_configure_acknowledged w serial s u s' :
  xdg_surface_handle_configure w serial s = Ok (u, s') →
  ∃ win d between,
    windows s !! w = Some win ∧
    displays s !! w_display win = Some d ∧
    windows s' = <[w := with_w_configured true win]> (windows s) ∧
    trace s' =
      wl_display_flush (d_display d)
      :: between
      ++ zxdg_surface_v6_ack_configure (w_xdg_surface win) serial :: trace s ∧
    (between = [] ∨
     ∃ surface compositor buffer region width height viewport vw vh,
       between =
         commit_requests surface compositor buffer region width height
         ++ [wp_viewport_set_destination viewport vw vh]) ∧
    (w_buffer win = None ∨ w_viewport win = None ∨
       w_width win ≤ 0 ∨ w_height win ≤ 0 →
     between = []).
Proof.
  unfold xdg_surface_handle_configure. intros H.
  apply bind_Ok in H as (win & s0 & Hwin & H).
  apply load_window_Ok in Hwin as [Hwin ->].
  unbind H. unbind H.
  apply bind_Ok in H as (r & s3 & Hrec & H).
  apply bind_Ok in H as ([] & s4 & Hcommit & H).
  apply bind_Ok in H as (d & s5 & Hd & Hflush).
  apply load_display_Ok in Hd as [Hd ->]. step Hflush. unfold_world.
  set (s2 := set_windows _ _) in Hrec.
  assert (Hw2 : windows s2 !! w = Some (with_w_configured true win))
    by apply lookup_insert_eq.
  assert (Hcases :
    (r = 0 ∧ s3 = s2) ∨
    (r = 1 ∧ ∃ viewport vw vh,
       adds_requests [wp_viewport_set_destination viewport vw vh] s2 s3))
    by (apply window_recenter_effect in Hrec
          as [?|(? & vp & vw & vh & ? & _)]; eauto 10).
  destruct Hcases as [[-> ->]|(-> & vp & vw & vh & (Hd3 & Hw3 & Hf3 & Ht3))].
  - cbn [Z.eqb] in Hcommit. step Hcommit. subst s2. unfold_world.
    exists win, d, []. repeat split; auto.
  - cbn [Z.eqb] in Hcommit.
    apply window_commit_effect in Hcommit
      as (sf & co & bu & wd & ht & (Hd4 & Hw4 & Hf4 & Ht4)).
    rewrite Hd4, Hd3 in Hd. subst s2. unfold_world.
    exists win, d, (commit_requests sf co bu (next_id s3) wd ht
                    ++ [wp_viewport_set_destination vp vw vh]).
    split; [exact Hwin|]. split; [exact Hd|].
    split; [congruence|].
    split; [rewrite Ht4, Ht3, <- app_assoc; reflexivity|].
    split; [right; eauto 12|].
    intros Hskip.
    rewrite (window_recenter_skipped _ w (with_w_configured true win))
      in Hrec by (assumption || exact Hskip).
    discriminate Hrec.
Qed.

Lemma surface_configure_acknowledged_witness :
  ∃ win d between,
    windows scenario_c !! 20%nat = Some win ∧
    displays scenario_c !! w_display win = Some d ∧
    windows (world_after (xdg_surface_handle_configure 20%nat 77 scenario_c)
               scenario_c) =
      <[20%nat := with_w_configured true win]> (windows scenario_c) ∧
    trace (world_after (xdg_surface_handle_configure 20%nat 77 scenario_c)
             scenario_c) =
      wl_display_flush (d_display d)
      :: between
      ++ zxdg_surface_v6_ack_configure (w_xdg_surface win) 77
         :: trace scenario_c ∧
    (between = [] ∨
     ∃ surface compositor buffer region width height viewport vw vh,
       between =
         commit_requests surface compositor buffer region width height
         ++ [wp_viewport_set_destination viewport vw vh]) ∧
    (w_buffer win = None ∨ w_viewport win = None ∨
       w_width win ≤ 0 ∨ w_height win ≤ 0 →
     between = []).
Proof.
  apply (surface_configure_acknowledged 20%nat 77 scenario_c tt
           (world_after (xdg_surface_handle_configure 20%nat 77 scenario_c)
              scenario_c)).
  vm_compute. reflexivity.
Defined.

(** ** Creating a window, then destroying it *)

Lemma app_cons_step {A} (a : A) (l rest tr : list A) :
  rest = l ++ tr → a :: rest = (a :: l) ++ tr.
Proof. intros ->. reflexivity. Qed.

(** Splits a trace into the requests added and the trace before. *)
Ltac trace_split :=
  repeat apply app_cons_step; exact (eq_sym (app_nil_l _)).

(** X9.  [display_create_window] on a live display returns a window, and
    whatever events arrive afterwards, [window_destroy] destroys exactly the
    proxies that creation made (surface, shell surface, toplevel, viewport),
    each once, the surface last; it frees the window and touches no
    framebuffer and no display. *)
Theorem window_destroy_releases_created s d dd w :
  displays s !! d = Some dd →
  ∃ s1 made,
    display_create_window d (Some w) s = Ok (Some w, s1) ∧
    trace s1 = made ++ trace s ∧
    ∀ events s2,
      dispatch_all events s1 = Ok (tt, s2) →
      ∃ s3 undone,
        window_destroy w s2 = Ok (tt, s3) ∧
        trace s3 = wl_surface_destroy (Some (next_id s)) :: undone ++ trace s2 ∧
        next_id s :: omap destroys undone ≡ₚ omap creates made ∧
        windows s3 = delete w (windows s2) ∧
        fbs s3 = fbs s2 ∧ displays s3 = displays s2.
Proof.
  intros Hd. unfold display_create_window.
  destruct (d_xdg_shell dd) as [shell|] eqn:Hshell;
    destruct (d_viewporter dd) as [viewporter|] eqn:Hvp.
  all: repeat fwd; rewrite ?Hshell, ?Hvp; repeat fwd;
    rewrite ?Hshell, ?Hvp; repeat fwd.
  all: eexists _, _; split; [reflexivity|]; unfold_world;
    (split; [trace_split|]).
  all: intros events s2 Hevents;
    destruct (dispatch_all_window _ _ _ _ w _ Hevents (lookup_insert_eq _ _ _))
      as (win2 & Hw2 & _ & Hs2 & Hv2 & Hx2 & Ht2 & _);
    cbn [w_surface w_viewport w_xdg_surface w_xdg_toplevel] in Hs2, Hv2, Hx2, Ht2;
    unfold window_destroy; fwd; rewrite Ht2, Hx2, Hv2, Hs2; repeat fwd;
    eexists _, _; (split; [reflexivity|]); unfold_world;
    (split; [f_equal; trace_split|]);
    (split; [cbn; solve_Permutation | auto]).
Qed.

Lemma window_destroy_releases_created_witness :
  ∃ s1 made,
    display_create_window 10%nat (Some 21%nat) scenario_c
      = Ok (Some 21%nat, s1) ∧
    trace s1 = made ++ trace scenario_c ∧
    ∀ events s2,
      dispatch_all events s1 = Ok (tt, s2) →
      ∃ s3 undone,
        window_destroy 21%nat s2 = Ok (tt, s3) ∧
        trace s3 =
          wl_surface_destroy (Some (next_id scenario_c))
          :: undone ++ trace s2 ∧
        next_id scenario_c :: omap destroys undone ≡ₚ omap creates made ∧
        windows s3 = delete 21%nat (windows s2) ∧
        fbs s3 = fbs s2 ∧ displays s3 = displays s2.
Proof.
  apply (window_destroy_releases_created scenario_c 10%nat example_display
           21%nat).
  reflexivity.
Defined.

(** ** A window of a created display *)

(** A display that listens to its registry gains the viewporter (resp. the
    compositor) by an event exactly when the event advertises it. *)
Lemma dispatch_viewporter e s u s' d dd :
  dispatch e s = Ok (u, s') →
  displays s !! d = Some dd →
  is_null (d_registry dd) = false →
  ∃ dd', displays s' !! d = Some dd' ∧
         d_registry dd' = d_registry dd ∧
         is_null (d_viewporter dd') =
           is_null (d_viewporter dd)
           && negb (advertised_by d "wp_viewporter" e) ∧
         is_null (d_compositor dd') =
           is_null (d_compositor dd)
           && negb (advertised_by d "wl_compositor" e).
Proof.
  intros H Hd Hreg. destruct e; cbn [dispatch] in H; handlers; mrun;
    try surface_configure_effect;
    repeat match goal with
           | H : displays _ = _ |- _ => rewrite H
           end;
    lookups;
    (eexists; split; [first [eassumption | reflexivity]|]);
    cbn [advertised_by d_registry d_viewporter d_compositor with_d_compositor
         with_d_viewporter with_d_xdg_shell with_d_dmabuf with_d_formats
         with_d_running is_null];
    string_tests;
    repeat case_bool_decide; try congruence;
    cbn [String.eqb Ascii.eqb Bool.eqb andb negb];
    rewrite ?andb_true_r, ?andb_false_r; auto.
Qed.

Lemma dispatch_all_viewporter events s u s' d dd :
  dispatch_all events s = Ok (u, s') →
  displays s !! d = Some dd →
  is_null (d_registry dd) = false →
  ∃ dd', displays s' !! d = Some dd' ∧
         d_registry dd' = d_registry dd ∧
         is_null (d_viewporter dd') =
           is_null (d_viewporter dd)
           && negb (advertises d "wp_viewporter" events) ∧
         is_null (d_compositor dd') =
           is_null (d_compositor dd)
           && negb (advertises d "wl_compositor" events).
Proof.
  revert s dd. induction events as [|e events IH]; intros s dd H Hd Hreg;
    simpl in H.
  - apply ret_Ok in H as [_ ->]. exists dd.
    cbn. rewrite !andb_true_r. auto.
  - apply bind_Ok in H as ([] & s1 & He & H).
    destruct (dispatch_viewporter _ _ _ _ _ _ He Hd Hreg)
      as (d1 & Hd1 & Hr1 & Hv1 & Hc1).
    rewrite <- Hr1 in Hreg.
    destruct (IH _ _ H Hd1 Hreg) as (d2 & Hd2 & Hr2 & Hv2 & Hc2).
    exists d2. split; [exact Hd2|]. split; [congruence|].
    unfold advertises in *. cbn [existsb].
    rewrite Hv2, Hv1, Hc2, Hc1, !negb_orb, !andb_assoc. auto.
Qed.

(** X10.  On a display that [display_create] returned, creating a window
    succeeds: the window starts unconfigured, without buffer, of size 0x0
    with [size_set] clear; it always has a surface, a shell surface and a
    toplevel, and it has a viewport exactly when the discovery round trip
    advertised [wp_viewporter]. *)
Theorem window_of_created_display d connected events s s1 w :
  display_create (Some d) connected events s = Ok (Some d, s1) →
  ∃ s2 win,
    display_create_window d (Some w) s1 = Ok (Some w, s2) ∧
    windows s2 !! w = Some win ∧
    w_display win = d ∧
    is_Some (w_surface win) ∧
    is_Some (w_xdg_surface win) ∧
    is_Some (w_xdg_toplevel win) ∧
    (is_Some (w_viewport win) ↔ advertises d "wp_viewporter" events = true) ∧
    w_buffer win = None ∧ w_width win = 0 ∧ w_height win = 0 ∧
    w_size_set win = false ∧ w_configured win = false.
Proof.
  intros H. unfold display_create in H. unbind H.
  apply bind_Ok in H as (dpy & s0 & Hconn & H).
  destruct connected; [|step Hconn; mrun; discriminate].
  unbind Hconn. step Hconn. do 5 unbind H.
  apply bind_Ok in H as ([] & sr & Hrt & H).
  unfold roundtrip in Hrt. unbind Hrt. unfold_world.
  destruct (dispatch_all_viewporter _ _ _ _ d _ Hrt
              (lookup_insert_eq _ _ _) eq_refl)
    as (dd & Hdd & _ & Hvp & _).
  cbn in Hvp.
  apply bind_Ok in H as (dl & sl & Hload & H).
  apply load_display_Ok in Hload as [Hload ->].
  assert (dl = dd) as -> by congruence.
  destruct (is_null (d_xdg_shell dd) || is_null (d_dmabuf dd)) eqn:Hcaps;
    mrun; [discriminate|].
  destruct (d_xdg_shell dd) as [shell|] eqn:Hshell;
    [|simpl in Hcaps; discriminate Hcaps].
  unfold display_create_window.
  fwd. fwd. cbn [d_compositor d_xdg_shell d_viewporter with_d_running].
  rewrite Hshell.
  destruct (d_viewporter dd) as [viewporter|] eqn:Hviewporter;
    repeat fwd;
    (eexists _, _; split; [reflexivity|]); unfold_world;
    (split; [apply lookup_insert_eq|]);
    cbn [w_display w_surface w_xdg_surface w_xdg_toplevel w_viewport w_buffer
         w_width w_height w_size_set w_configured];
    cbn [is_null] in Hvp;
    repeat split; eauto; try discriminate;
    try (intros _; destruct (advertises d "wp_viewporter" events);
         [reflexivity | discriminate Hvp]);
    try (intros Hadv; rewrite Hadv in Hvp; discriminate Hvp);
    try (intros [? ?]; discriminate).
Qed.

Lemma window_of_created_display_witness :
  ∃ s2 win,
    display_create_window 10%nat (Some 20%nat)
      (world_after (display_create (Some 10%nat) true discovery_events
                      empty_world) empty_world) = Ok (Some 20%nat, s2) ∧
    windows s2 !! 20%nat = Some win ∧
    w_display win = 10%nat ∧
    is_Some (w_surface win) ∧
    is_Some (w_xdg_surface win) ∧
    is_Some (w_xdg_toplevel win) ∧
    (is_Some (w_viewport win) ↔
     advertises 10%nat "wp_viewporter" discovery_events = true) ∧
    w_buffer win = None ∧ w_width win = 0 ∧ w_height win = 0 ∧
    w_size_set win = false ∧ w_configured win = false.
Proof.
  apply (window_of_created_display 10%nat true discovery_events empty_world).
  vm_compute. reflexivity.
Defined.

(** ** Creating a display, then destroying it *)

Lemma display_destroy_run s d dd :
  displays s !! d = Some dd →
  display_destroy d s =
    Ok (tt, {| displays := delete d (displays s); windows := windows s;
               fbs := fbs s; next_id := next_id s;
               trace := destroy_requests dd ++ trace s |}).
Proof.
  intros Hd. unfold display_destroy, destroy_requests. fwd.
  destruct (d_viewporter dd), (d_compositor dd), (d_xdg_shell dd),
    (d_dmabuf dd), (d_registry dd), (d_display dd); repeat fwd; reflexivity.
Qed.

(** One advertisement to a display that has not yet bound the advertised
    interface: the proxy bound is one more proxy the display holds, and
    nothing is destroyed. *)
Lemma dispatch_advert s d dd id interface version :
  displays s !! d = Some dd →
  is_null (d_registry dd) = false →
  (interface = "wl_compositor" → d_compositor dd = None) →
  (interface = "wp_viewporter" → d_viewporter dd = None) →
  (interface = "zxdg_shell_v6" → d_xdg_shell dd = None) →
  (interface = "zwp_linux_dmabuf_v1" → d_dmabuf dd = None) →
  ∃ s' dd' new,
    dispatch (registry_global d id interface version) s = Ok (tt, s') ∧
    displays s' = <[d := dd']> (displays s) ∧
    trace s' = new ++ trace s ∧
    omap destroys new = [] ∧
    omap destroys (destroy_requests dd') ≡ₚ
      omap creates new ++ omap destroys (destroy_requests dd) ∧
    d_registry dd' = d_registry dd ∧
    bound (d_compositor dd') =
      (bound (d_compositor dd)
       + if String.eqb interface "wl_compositor" then 1 else 0)%nat ∧
    bound (d_viewporter dd') =
      (bound (d_viewporter dd)
       + if String.eqb interface "wp_viewporter" then 1 else 0)%nat ∧
    bound (d_xdg_shell dd') =
      (bound (d_xdg_shell dd)
       + if String.eqb interface "zxdg_shell_v6" then 1 else 0)%nat ∧
    bound (d_dmabuf dd') =
      (bound (d_dmabuf dd)
       + if String.eqb interface "zwp_linux_dmabuf_v1" then 1 else 0)%nat.
Proof.
  intros Hd Hreg Hc Hv Hs Hm. cbn [dispatch]. rewrite Hd, Hreg.
  unfold registry_handle_global. fwd.
  destruct dd as [dpy reg comp shell vp dm fmts cnt run].
  cbn [d_display d_registry d_compositor d_xdg_shell d_viewporter d_dmabuf]
    in *.
  destruct (String.eqb_spec interface "wl_compositor") as [->|Hn1].
  { rewrite (Hc eq_refl). repeat fwd.
    eexists _, _, [_]. split; [reflexivity|]. unfold_world.
    do 3 (split; [reflexivity|]).
    split; [unfold destroy_requests; destruct dpy, reg, shell, vp, dm;
            cbn; solve_Permutation|].
    split; [reflexivity|]. cbn. repeat split; lia. }
  destruct (String.eqb_spec interface "wp_viewporter") as [->|Hn2].
  { rewrite (Hv eq_refl). repeat fwd.
    eexists _, _, [_]. split; [reflexivity|]. unfold_world.
    do 3 (split; [reflexivity|]).
    split; [unfold destroy_requests; destruct dpy, reg, comp, shell, dm;
            cbn; solve_Permutation|].
    split; [reflexivity|]. cbn. repeat split; lia. }
  destruct (String.eqb_spec interface "zxdg_shell_v6") as [->|Hn3].
  { rewrite (Hs eq_refl). repeat fwd.
    eexists _, _, [_]. split; [reflexivity|]. unfold_world.
    do 3 (split; [reflexivity|]).
    split; [unfold destroy_requests; destruct dpy, reg, comp, vp, dm;
            cbn; solve_Permutation|].
    split; [reflexivity|]. cbn. repeat split; lia. }
  destruct (String.eqb_spec interface "zwp_linux_dmabuf_v1") as [->|Hn4].
  { rewrite (Hm eq_refl). repeat fwd.
    eexists _, _, [_]. split; [reflexivity|]. unfold_world.
    do 3 (split; [reflexivity|]).
    split; [unfold destroy_requests; destruct dpy, reg, comp, shell, vp;
            cbn; solve_Permutation|].
    split; [reflexivity|]. cbn. repeat split; lia. }
  eexists s, _, []. split; [reflexivity|].
  split; [symmetry; apply insert_id; exact Hd|].
  do 2 (split; [reflexivity|]).
  split; [reflexivity|]. split; [reflexivity|].
  cbn. repeat split; lia.
Qed.

Lemma times_advertised_cons d x id i v events :
  times_advertised d x (registry_global d id i v :: events) =
  ((if String.eqb i x then 1 else 0) + times_advertised d x events)%nat.
Proof.
  unfold times_advertised. cbn [List.filter advertised_by].
  rewrite bool_decide_eq_true_2 by reflexivity. cbn [andb].
  destruct (String.eqb i x); reflexivity.
Qed.

Lemma bound_0 (p : option handle) : bound p = 0%nat → p = None.
Proof. destruct p; [discriminate | reflexivity]. Qed.

(** A discovery round trip in which no interface the display binds is
    advertised again: every proxy bound is one the display holds at the end,
    beside those it held before, and nothing is destroyed. *)
Lemma dispatch_all_adverts d events : ∀ s dd,
  Forall (λ e, is_advert_to d e = true) events →
  displays s !! d = Some dd →
  is_null (d_registry dd) = false →
  (times_advertised d "wl_compositor" events + bound (d_compositor dd)
   ≤ 1)%nat →
  (times_advertised d "wp_viewporter" events + bound (d_viewporter dd)
   ≤ 1)%nat →
  (times_advertised d "zxdg_shell_v6" events + bound (d_xdg_shell dd)
   ≤ 1)%nat →
  (times_advertised d "zwp_linux_dmabuf_v1" events + bound (d_dmabuf dd)
   ≤ 1)%nat →
  ∃ s' dd' new,
    dispatch_all events s = Ok (tt, s') ∧
    displays s' = <[d := dd']> (displays s) ∧
    trace s' = new ++ trace s ∧
    omap destroys new = [] ∧
    omap destroys (destroy_requests dd') ≡ₚ
      omap creates new ++ omap destroys (destroy_requests dd).
Proof.
  induction events as [|e events IH]; intros s dd Hall Hd Hreg Hc Hv Hs Hm.
  - exists s, dd, []. split; [reflexivity|].
    split; [symmetry; apply insert_id; exact Hd|].
    repeat split; reflexivity.
  - apply Forall_cons in Hall as [He Hall].
    destruct e as [d' id i v| | | | | | | | |]; try discriminate He.
    cbn [is_advert_to] in He. apply bool_decide_eq_true_1 in He as ->.
    rewrite times_advertised_cons in Hc, Hv, Hs, Hm.
    destruct (dispatch_advert s d dd id i v Hd Hreg)
      as (s1 & dd1 & new1 & Hrun & Hd1 & Htr1 & Hdes1 & Hperm1 & Hreg1
          & Hbc & Hbv & Hbs & Hbm).
    + intros ->. apply bound_0. cbn in Hc. lia.
    + intros ->. apply bound_0. cbn in Hv. lia.
    + intros ->. apply bound_0. cbn in Hs. lia.
    + intros ->. apply bound_0. cbn in Hm. lia.
    + destruct (IH s1 dd1 Hall)
        as (s2 & dd2 & new2 & Hrun2 & Hd2 & Htr2 & Hdes2 & Hperm2).
      * rewrite Hd1. apply lookup_insert_eq.
      * rewrite Hreg1. exact Hreg.
      * rewrite Hbc. lia.
      * rewrite Hbv. lia.
      * rewrite Hbs. lia.
      * rewrite Hbm. lia.
      * exists s2, dd2, (new2 ++ new1).
        split; [cbn [dispatch_all]; erewrite bind_step by exact Hrun;
                exact Hrun2|].
        split; [rewrite Hd2, Hd1; apply insert_insert_eq|].
        split; [rewrite Htr2, Htr1; apply app_assoc|].
        rewrite !omap_app, Hdes1, Hdes2. split; [reflexivity|].
        rewrite Hperm2, Hperm1. rewrite app_assoc. reflexivity.
Qed.

Lemma destroy_requests_create_nothing dd :
  omap creates (destroy_requests dd) = [].
Proof.
  unfold destroy_requests.
  destruct (d_display dd), (d_registry dd), (d_dmabuf dd), (d_xdg_shell dd),
    (d_compositor dd), (d_viewporter dd); reflexivity.
Qed.

Lemma roundtrip_adverts d dpy events s dd :
  Forall (λ e, is_advert_to d e = true) events →
  displays s !! d = Some dd →
  is_null (d_registry dd) = false →
  (times_advertised d "wl_compositor" events + bound (d_compositor dd)
   ≤ 1)%nat →
  (times_advertised d "wp_viewporter" events + bound (d_viewporter dd)
   ≤ 1)%nat →
  (times_advertised d "zxdg_shell_v6" events + bound (d_xdg_shell dd)
   ≤ 1)%nat →
  (times_advertised d "zwp_linux_dmabuf_v1" events + bound (d_dmabuf dd)
   ≤ 1)%nat →
  ∃ s' dd' new,
    roundtrip dpy events s = Ok (tt, s') ∧
    displays s' = <[d := dd']> (displays s) ∧
    trace s' = new ++ trace s ∧
    omap destroys new = [] ∧
    omap destroys (destroy_requests dd') ≡ₚ
      omap creates new ++ omap destroys (destroy_requests dd).
Proof.
  intros Hall Hd Hreg Hc Hv Hs Hm.
  destruct (dispatch_all_adverts d events
              {| displays := displays s; windows := windows s; fbs := fbs s;
                 next_id := next_id s;
                 trace := wl_display_roundtrip dpy :: trace s |} dd Hall Hd
              Hreg Hc Hv Hs Hm)
    as (s' & dd' & new & Hrun & Hd' & Htr & Hdes & Hperm).
  exists s', dd', (new ++ [wl_display_roundtrip dpy]).
  split; [unfold roundtrip; fwd; exact Hrun|].
  split; [exact Hd'|].
  split; [rewrite Htr, <- app_assoc; reflexivity|].
  rewrite !omap_app, Hdes. cbn. rewrite app_nil_r.
  split; [reflexivity | exact Hperm].
Qed.

(** X11.  A display releases what it created.  When the discovery round trip
    delivers only advertisements to the display and advertises none of the
    four interfaces it binds more than once, [display_create] returns, and
    once the display is destroyed ([display_destroy] by the caller after a
    success, by [display_create] itself on its failure paths) every proxy
    created since the call (the connection, the registry, the globals bound)
    has been destroyed exactly once, nothing else has, and the display is
    freed. *)
Theorem display_releases_what_it_created d connected events s :
  Forall (λ e, is_advert_to d e = true) events →
  (times_advertised d "wl_compositor" events ≤ 1)%nat →
  (times_advertised d "wp_viewporter" events ≤ 1)%nat →
  (times_advertised d "zxdg_shell_v6" events ≤ 1)%nat →
  (times_advertised d "zwp_linux_dmabuf_v1" events ≤ 1)%nat →
  ∃ r s1 s2 new,
    display_create (Some d) connected events s = Ok (r, s1) ∧
    match r with
    | Some display => display = d ∧ display_destroy display s1 = Ok (tt, s2)
    | None => s2 = s1
    end ∧
    trace s2 = new ++ trace s ∧
    omap destroys new ≡ₚ omap creates new ∧
    displays s2 !! d = None.
Proof.
  intros Hall Hc Hv Hs Hm. unfold display_create. fwd.
  destruct connected.
  - do 6 fwd.
    match goal with
    | |- context [bind (roundtrip _ events) _ ?s0] => set (s0' := s0)
    end.
    destruct (roundtrip_adverts d (Some (next_id s)) events s0'
                (with_d_registry (Some (S (next_id s)))
                   (with_d_display (Some (next_id s)) calloc_display)) Hall)
      as (s' & dd' & new & Hrun & Hd' & Htr & Hdes & Hperm).
    + apply lookup_insert_eq.
    + reflexivity.
    + cbn. lia.
    + cbn. lia.
    + cbn. lia.
    + cbn. lia.
    + erewrite bind_step by exact Hrun.
      assert (Hdd' : displays s' !! d = Some dd')
        by (rewrite Hd'; apply lookup_insert_eq).
      fwd.
      destruct (is_null (d_xdg_shell dd') || is_null (d_dmabuf dd')).
      * fwd. erewrite bind_step
          by (apply display_destroy_run; unfold_world; exact Hdd').
        exists None; eexists _, _,
          (destroy_requests dd' ++ [err "missing wayland globals"] ++ new
           ++ [wl_display_get_registry (Some (next_id s)) (S (next_id s));
               wl_display_connect (Some (next_id s))]).
        split; [reflexivity|].
        split; [reflexivity|]. unfold_world.
        split; [rewrite Htr; repeat (rewrite <- app_assoc; simpl);
                reflexivity|].
        split; [|apply lookup_delete_eq].
        rewrite !omap_app, destroy_requests_create_nothing, Hdes, Hperm.
        cbn. solve_Permutation.
      * fwd.
        exists (Some d); eexists _, _,
          (destroy_requests dd' ++ new
           ++ [wl_display_get_registry (Some (next_id s)) (S (next_id s));
               wl_display_connect (Some (next_id s))]).
        split; [reflexivity|].
        split; [split; [reflexivity|];
                apply display_destroy_run; unfold_world;
                apply lookup_insert_eq|].
        unfold_world.
        replace (destroy_requests (with_d_running 1 dd'))
          with (destroy_requests dd') by reflexivity.
        split; [rewrite Htr; repeat (rewrite <- app_assoc; simpl);
                reflexivity|].
        split; [|apply lookup_delete_eq].
        rewrite !omap_app, destroy_requests_create_nothing, Hdes, Hperm.
        cbn. solve_Permutation.
  - do 4 fwd.
    erewrite bind_step
      by (apply display_destroy_run; unfold_world; apply lookup_insert_eq).
    eexists None, _, _, _. split; [reflexivity|].
    split; [reflexivity|]. unfold_world.
    split; [trace_split|].
    split; [reflexivity | apply lookup_delete_eq].
Qed.

Lemma display_releases_what_it_created_witness :
  ∃ r s1 s2 new,
    display_create (Some 10%nat) true discovery_events empty_world
      = Ok (r, s1) ∧
    match r with
    | Some display =>
        display = 10%nat ∧ display_destroy display s1 = Ok (tt, s2)
    | None => s2 = s1
    end ∧
    trace s2 = new ++ trace empty_world ∧
    omap destroys new ≡ₚ omap creates new ∧
    displays s2 !! 10%nat = None.
Proof.
  apply (display_releases_what_it_created 10%nat true discovery_events
           empty_world).
  - repeat constructor.
  - vm_compute. lia.
  - vm_compute. lia.
  - vm_compute. lia.
  - vm_compute. lia.
Defined.

(** ** Pings *)

(** No event takes the shell of a display away. *)
Lemma dispatch_shell_kept e s u s' d dd :
  dispatch e s = Ok (u, s') →
  displays s !! d = Some dd →
  is_null (d_xdg_shell dd) = false →
  ∃ dd', displays s' !! d = Some dd' ∧ is_null (d_xdg_shell dd') = false.
Proof.
  intros H Hd Hshell. destruct e; cbn [dispatch] in H; handlers; mrun;
    try surface_configure_effect;
    repeat match goal with
           | H : displays _ = _ |- _ => rewrite H
           end;
    lookups;
    (eexists; split; [first [eassumption | reflexivity]|]);
    cbn [d_xdg_shell with_d_compositor with_d_viewporter with_d_xdg_shell
         with_d_dmabuf with_d_formats with_d_running is_null];
    first [reflexivity | congruence].
Qed.

Lemma pongs_not_emitted e new :
  pings [e] = [] →
  Forall (λ r, emitted_by e r = true) new → pongs new = [].
Proof.
  intros He Hall. induction Hall as [|r new Hr _ IH]; [reflexivity|].
  destruct e, r; try discriminate Hr; try discriminate He; exact IH.
Qed.

(** A ping to a display that has its shell is answered by one pong with the
    serial of the ping; no other event is answered by a pong. *)
Lemma dispatch_pongs e s u s' d dd :
  dispatch e s = Ok (u, s') →
  displays s !! d = Some dd →
  is_null (d_xdg_shell dd) = false →
  pings_only d e = true →
  ∃ new, trace s' = new ++ trace s ∧ pongs new = pings [e].
Proof.
  intros H Hd Hshell Honly.
  destruct (pings [e]) as [|serial l] eqn:He.
  - apply dispatch_trace in H as (new & Htr & Hall).
    exists new. split; [exact Htr|].
    eapply pongs_not_emitted; eassumption.
  - destruct e; try discriminate He.
    cbn [pings_only] in Honly. apply bool_decide_eq_true_1 in Honly as ->.
    cbn [dispatch] in H. rewrite Hd, Hshell in H.
    unfold xdg_shell_handle_ping in H. mrun.
    eexists [_]. split; [reflexivity|]. rewrite <- He. reflexivity.
Qed.

(** X12.  Pings are answered in order.  On a display that has its shell,
    whatever else a round trip delivers (to this display, its windows or
    its framebuffers), if the round trip ends, the pongs it sent carry
    exactly the serials of its pings, one pong a ping, in the order of
    arrival (the trace is newest first). *)
Theorem pings_answered_in_order events : ∀ s s' d dd,
  displays s !! d = Some dd →
  is_null (d_xdg_shell dd) = false →
  Forall (λ e, pings_only d e = true) events →
  dispatch_all events s = Ok (tt, s') →
  ∃ new, trace s' = new ++ trace s ∧ pongs new = rev (pings events).
Proof.
  induction events as [|e events IH]; intros s s' d dd Hd Hshell Hall H;
    cbn [dispatch_all] in H.
  - apply ret_Ok in H as [_ ->]. exists []. split; reflexivity.
  - apply Forall_cons in Hall as [He Hall].
    apply bind_Ok in H as ([] & s1 & Hrun & H).
    destruct (dispatch_shell_kept _ _ _ _ _ _ Hrun Hd Hshell)
      as (dd1 & Hd1 & Hshell1).
    destruct (dispatch_pongs _ _ _ _ _ _ Hrun Hd Hshell He)
      as (new1 & Htr1 & Hp1).
    destruct (IH _ _ _ _ Hd1 Hshell1 Hall H) as (new2 & Htr2 & Hp2).
    exists (new2 ++ new1).
    split; [rewrite Htr2, Htr1; apply app_assoc|].
    unfold pongs in *. rewrite omap_app, Hp2, Hp1.
    change (e :: events) with ([e] ++ events).
    unfold pings. rewrite omap_app, rev_app_distr.
    f_equal. destruct e; reflexivity.
Qed.

Lemma pings_answered_in_order_witness :
  ∃ new,
    trace
      (world_after
         (dispatch_all [xdg_shell_ping 10%nat 7; xdg_toplevel_close 20%nat;
                        xdg_shell_ping 10%nat 8]
            scenario_c) empty_world)
      = new ++ trace scenario_c ∧
    pongs new = rev (pings [xdg_shell_ping 10%nat 7;
                            xdg_toplevel_close 20%nat;
                            xdg_shell_ping 10%nat 8]).
Proof.
  apply (pings_answered_in_order _ scenario_c _ 10%nat
           example_display).
  - vm_compute. reflexivity.
  - reflexivity.
  - repeat constructor.
  - vm_compute. reflexivity.
Defined.

(** ** An interface advertised again *)

Lemma destroy_requests_handles dd :
  omap destroys (destroy_requests dd) =
  option_list (d_display dd) ++ option_list (d_registry dd)
  ++ option_list (d_dmabuf dd) ++ option_list (d_xdg_shell dd)
  ++ option_list (d_compositor dd) ++ option_list (d_viewporter dd).
Proof.
  unfold destroy_requests.
  destruct (d_display dd), (d_registry dd), (d_dmabuf dd), (d_xdg_shell dd),
    (d_compositor dd), (d_viewporter dd); reflexivity.
Qed.

Lemma not_elem_of_swapped {A} (l l' rest : list A) p q :
  l ≡ₚ p :: rest → l' ≡ₚ q :: rest → NoDup l → p ≠ q → p ∉ l'.
Proof.
  intros Hl Hl' Hnd Hne. rewrite Hl in Hnd. rewrite Hl'.
  apply NoDup_cons in Hnd as [Hp _]. rewrite elem_of_cons.
  intros [?|?]; [apply Hne | apply Hp]; assumption.
Qed.

(** X13.  [registry_handle_global] overwrites the proxy of an interface that
    is advertised again.  On a display that holds distinct proxies, older
    than any proxy still to come, and has bound [interface] to [p]: after
    one more advertisement of [interface], [display_destroy] returns and
    frees the display, but no request of the two calls destroys [p]. *)
Theorem rebinding_leaks_the_proxy s d dd interface p id version :
  displays s !! d = Some dd →
  is_null (d_registry dd) = false →
  capability interface dd = Some p →
  NoDup (omap destroys (destroy_requests dd)) →
  (p < next_id s)%nat →
  ∃ s1 new,
    (dispatch (registry_global d id interface version);;;
     display_destroy d) s = Ok (tt, s1) ∧
    trace s1 = new ++ trace s ∧
    (p ∉ omap destroys new) ∧
    displays s1 !! d = None.
Proof.
  intros Hd Hreg Hcap Hnd Hlt. unfold capability in Hcap.
  unfold bind at 1. cbn [dispatch]. rewrite Hd, Hreg.
  unfold registry_handle_global. fwd.
  rewrite destroy_requests_handles in Hnd.
  destruct dd as [dpy reg comp shell vp dm fmts cnt run].
  cbn [d_display d_registry d_compositor d_xdg_shell d_viewporter d_dmabuf]
    in *.
  assert (Hfresh : p ≠ next_id s) by lia.
  repeat match goal with
         | |- context [String.eqb interface ?i] =>
             destruct (String.eqb_spec interface i) as [->|?]
         end;
    try discriminate Hcap; subst;
    repeat fwd; unfold store_display; cbn iota beta;
    (erewrite display_destroy_run
       by (unfold_world; apply lookup_insert_eq));
    (eexists _, (destroy_requests _ ++ [_]));
    (split; [reflexivity|]); unfold_world;
    (split; [rewrite <- app_assoc; reflexivity|]);
    (split; [|apply lookup_delete_eq]);
    rewrite omap_app, destroy_requests_handles, app_nil_r;
    cbn [d_display d_registry d_compositor d_xdg_shell d_viewporter d_dmabuf
         with_d_compositor with_d_viewporter with_d_xdg_shell with_d_dmabuf
         option_list] in *.
  - refine (not_elem_of_swapped _ _
             (option_list dpy ++ option_list reg ++ option_list dm
              ++ option_list shell ++ option_list vp) p (next_id s)
             _ _ Hnd Hfresh); solve_Permutation.
  - refine (not_elem_of_swapped _ _
             (option_list dpy ++ option_list reg ++ option_list dm
              ++ option_list shell ++ option_list comp) p (next_id s)
             _ _ Hnd Hfresh); solve_Permutation.
  - refine (not_elem_of_swapped _ _
             (option_list dpy ++ option_list reg ++ option_list dm
              ++ option_list comp ++ option_list vp) p (next_id s)
             _ _ Hnd Hfresh); solve_Permutation.
  - refine (not_elem_of_swapped _ _
             (option_list dpy ++ option_list reg ++ option_list shell
              ++ option_list comp ++ option_list vp) p (next_id s)
             _ _ Hnd Hfresh); solve_Permutation.
Qed.

Lemma rebinding_leaks_the_proxy_witness :
  ∃ s1 new,
    (dispatch (registry_global 10%nat 9 "wl_compositor" 4);;;
     display_destroy 10%nat) scenario_c = Ok (tt, s1) ∧
    trace s1 = new ++ trace scenario_c ∧
    (3%nat ∉ omap destroys new) ∧
    displays s1 !! 10%nat = None.
Proof.
  apply (rebinding_leaks_the_proxy scenario_c 10%nat example_display
           "wl_compositor" 3%nat 9 4).
  - vm_compute. reflexivity.
  - reflexivity.
  - reflexivity.
  - vm_compute.
    repeat (apply NoDup_cons_2;
            [rewrite ?elem_of_cons, elem_of_nil; lia|]).
    apply NoDup_nil_2.
  - vm_compute. lia.
Defined.
